(** * nanobot: the Copilot token manager and the SearXNG search tool

    A shallow embedding of
    - [nanobot/providers/github_copilot_token.py] (module [CopilotToken]) and
    - [mcp-servers/searxng_server.py] (module [Searxng]),
    with the properties of both proved over the embedding.

    Conventions of the embedding.
    - A Python value that [json.load] or an MCP argument dictionary can hold is
      a [value]; a [dict] is the list of its items, read by key.
    - A Python [float] is a binary64 double, a [pyfloat]: a rational, an
      infinity or NaN. An operation on floats is the exact operation on the
      rationals followed by [round], the rounding to the nearest double, ties
      to even, that overflows to an infinity. Zero has no sign.
    - A [str] is the [string] of its characters, one [ascii] each.
    - A call that can raise returns an [outcome]; stateful code is written in
      the monad [M] over the part of the world the code reads and writes. *)

From Stdlib Require Import PrimFloat Uint63.
From Stdlib Require FloatOps.
From Stdlib Require Import ZArith QArith Qround Bool List String Ascii DecimalString Lia Lqa.
Import ListNotations.

Local Open Scope string_scope.

(** ** Floats *)

Inductive pyfloat : Type :=
| Finite (q : Q)
| Inf (negative : bool)
| NaN.

(** The integer nearest to [x], the even one of two equally near. *)
Definition rne (x : Q) : Z :=
  let f := Qfloor x in
  match Qcompare (x - inject_Z f) (1 # 2) with
  | Lt => f
  | Eq => if Z.even f then f else (f + 1)%Z
  | Gt => (f + 1)%Z
  end.

(** Rounding on the grid of the doubles, for [x >= 0] counted in units of
    [2^-1074], the smallest positive double. Below [2^53] units the doubles
    are the integers; from [2^(52+s)] to [2^(53+s)] they are the multiples of
    [2^s]: 53 significant bits. *)
Definition round_grid (x : Q) : Z :=
  let s := Z.max 0 (Z.log2 (Qfloor x) - 52) in
  (rne (x / inject_Z (2 ^ s)) * 2 ^ s)%Z.

(** The double nearest to [q >= 0]; what rounds to [2^1024] (that is
    [2^2098] units) or more overflows. *)
Definition round_pos (q : Q) : pyfloat :=
  let m := round_grid (q * inject_Z (2 ^ 1074)) in
  if (2 ^ 2098 <=? m)%Z then Inf false
  else Finite (Qred (m # (2 ^ 1074))).

Definition float_opp (x : pyfloat) : pyfloat :=
  match x with
  | Finite q => Finite (- q)
  | Inf negative => Inf (negb negative)
  | NaN => NaN
  end.

(** The double nearest to [q]. *)
Definition round (q : Q) : pyfloat :=
  if (Qnum q <? 0)%Z then float_opp (round_pos (- q)) else round_pos q.

(** [x - y] on floats. *)
Definition float_sub (x y : pyfloat) : pyfloat :=
  match x, y with
  | NaN, _ => NaN
  | _, NaN => NaN
  | Finite a, Finite b => round (a - b)
  | Finite _, Inf negative => Inf (negb negative)
  | Inf negative, Finite _ => Inf negative
  | Inf negative, Inf negative' =>
      if Bool.eqb negative negative' then NaN else Inf negative
  end.

(** The value of one of the kernel's binary64 floats, against which [round]
    and [float_sub] are checked below. *)
Definition of_binary64 (f : PrimFloat.float) : pyfloat :=
  match FloatOps.Prim2SF f with
  | SpecFloat.S754_zero _ => Finite 0
  | SpecFloat.S754_infinity negative => Inf negative
  | SpecFloat.S754_nan => NaN
  | SpecFloat.S754_finite negative m e =>
      Finite
        (Qred ((if negative then inject_Z (-1) else inject_Z 1) *
               inject_Z (Zpos m) * Qpower 2 e))
  end.

(** A rational that is a double: it rounds to itself. *)
Definition is_double (q : Q) : bool :=
  match round q with
  | Finite r => Qeq_bool r q
  | _ => false
  end.

(** The finite doubles: what a clock reads. *)
Record double : Type := mkDouble {
  dval :> Q;
  dval_ok : is_double dval = true
}.

(** The double [q], when [q] is one; zero otherwise. *)
Definition double_of (q : Q) : double :=
  (if is_double q as b return (is_double q = b -> double)
   then fun H => mkDouble q H
   else fun _ => mkDouble 0 eq_refl) eq_refl.

(** ** Python values *)

#[warnings="-register-all"]
Inductive value : Type :=
| PyNone
| PyBool (b : bool)
| PyInt (z : Z)
| PyFloat (x : pyfloat)
| PyStr (s : string)
| PyList (items : list value)
| PyDict (items : list (string * value)).

(** Exceptions, by the class that decides which [except] clause takes them.
    [BaseOnly] stands for the classes that derive from [BaseException] but not
    from [Exception] (KeyboardInterrupt, SystemExit, asyncio.CancelledError). *)
Inductive exn : Type :=
| FileNotFoundError
| PermissionError
| JSONDecodeError
| AttributeError
| TypeError
| OverflowError
| ValueError
| HTTPError (msg : string)
| OtherException (name msg : string)
| BaseOnly (name : string).

Definition is_Exception (e : exn) : bool :=
  match e with
  | BaseOnly _ => false
  | _ => true
  end.

Definition is_HTTPError (e : exn) : bool :=
  match e with
  | HTTPError _ => true
  | _ => false
  end.

Inductive outcome (A : Type) : Type :=
| Return (a : A)
| Raise (e : exn).
Arguments Return {A} a.
Arguments Raise {A} e.

(** Sequencing of calls that can raise. *)
Definition and_then {A B : Type} (r : outcome A) (k : A -> outcome B) : outcome B :=
  match r with
  | Return a => k a
  | Raise e => Raise e
  end.

Notation "'let*' x := r 'in' k" := (and_then r (fun x => k))
  (at level 10, x name, r at level 200, k at level 200).

(** [d.get(key)] on the items of a dict. *)
Fixpoint dict_get (items : list (string * value)) (key : string) : option value :=
  match items with
  | [] => None
  | (k, v) :: rest => if String.eqb k key then Some v else dict_get rest key
  end.

(** [obj.get(key, default)]: only a dict has the method. *)
Definition py_get (obj : value) (key : string) (default : value) : outcome value :=
  match obj with
  | PyDict items =>
      Return (match dict_get items key with Some v => v | None => default end)
  | _ => Raise AttributeError
  end.

(** The number a value stands for in a comparison, if it is a finite one
    ([bool] is a subclass of [int]). *)
Definition as_number (v : value) : option Q :=
  match v with
  | PyBool b => Some (if b then 1 else 0)
  | PyInt z => Some (inject_Z z)
  | PyFloat (Finite q) => Some q
  | _ => None
  end.

(** [float(z)] of an int: the nearest double, and [OverflowError] beyond the
    range of the doubles. *)
Definition float_of_int (z : Z) : outcome pyfloat :=
  match round (inject_Z z) with
  | Inf _ => Raise OverflowError
  | x => Return x
  end.

(** The float that stands for a value in arithmetic with a float. *)
Definition to_float (v : value) : outcome pyfloat :=
  match v with
  | PyBool b => Return (Finite (if b then 1 else 0))
  | PyInt z => float_of_int z
  | PyFloat x => Return x
  | _ => Raise TypeError
  end.

(** [v - now] for a float [now]. *)
Definition py_sub_float (v : value) (now : double) : outcome pyfloat :=
  match to_float v with
  | Return x => Return (float_sub x (Finite now))
  | Raise e => Raise e
  end.

(** [x > y] on rationals. *)
Definition Qgtb (x y : Q) : bool := negb (Qle_bool x y).

(** [x > n] for a float [x] and an int [n]: the comparison is exact. *)
Definition float_gtb (x : pyfloat) (n : Q) : bool :=
  match x with
  | Finite q => Qgtb q n
  | Inf negative => negb negative
  | NaN => false
  end.

(** The integer part of a rational: the fraction is dropped, rounding toward
    zero. *)
Definition Qtruncate (x : Q) : Z := Z.quot (Qnum x) (Zpos (Qden x)).

(** [int(x)] on a float. *)
Definition py_int (x : pyfloat) : outcome Z :=
  match x with
  | Finite q => Return (Qtruncate q)
  | Inf _ => Raise OverflowError
  | NaN => Raise ValueError
  end.

(** [bool(v)], the test of [if v:] and [not v]. *)
Definition truthy (v : value) : bool :=
  match v with
  | PyNone => false
  | PyBool b => b
  | PyInt z => negb (Z.eqb z 0)
  | PyFloat (Finite q) => negb (Qeq_bool q 0)
  | PyFloat _ => true
  | PyStr s => negb (String.eqb s "")
  | PyList items => match items with [] => false | _ => true end
  | PyDict items => match items with [] => false | _ => true end
  end.

(** ** nanobot/providers/github_copilot_token.py *)

Module CopilotToken.

Definition REFRESH_THRESHOLD_SECONDS : Z := 300.

(** What [open(self.api_key_file)] followed by [json.load(f)] meets. *)
Inductive file_state : Type :=
| Missing
| Unreadable
| Malformed
| Contents (data : value).

Definition load_json (f : file_state) : outcome value :=
  match f with
  | Missing => Raise FileNotFoundError
  | Unreadable => Raise PermissionError
  | Malformed => Raise JSONDecodeError
  | Contents data => Return data
  end.

(** What the token manager and the authenticator share: the credential file
    and the clock read by [datetime.now().timestamp()]. *)
Record env : Type := mkEnv {
  api_key_file : file_state;
  clock : double
}.

(** [auth_calls] counts the calls of [Authenticator.get_api_key]. *)
Record world : Type := mkWorld {
  environment : env;
  auth_calls : nat
}.

Definition M (A : Type) : Type := world -> outcome A * world.

Definition ret {A : Type} (a : A) : M A := fun w => (Return a, w).

Definition lift {A : Type} (r : outcome A) : M A := fun w => (r, w).

Definition bind {A B : Type} (m : M A) (k : A -> M B) : M B :=
  fun w =>
    match m w with
    | (Return a, w') => k a w'
    | (Raise e, w') => (Raise e, w')
    end.

(** [try: body / except Exception: handler]. *)
Definition try_except_Exception {A : Type} (body handler : M A) : M A :=
  fun w =>
    match body w with
    | (Return a, w') => (Return a, w')
    | (Raise e, w') => if is_Exception e then handler w' else (Raise e, w')
    end.

Notation "x <- m ;; k" := (bind m (fun x => k))
  (at level 61, m at next level, right associativity).

(** [with open(self.api_key_file) as f: json.load(f)] *)
Definition open_and_load : M value :=
  fun w => (load_json (api_key_file (environment w)), w).

(** [datetime.now().timestamp()] *)
Definition now_timestamp : M double :=
  fun w => (Return (clock (environment w)), w).

Definition is_token_usable : M bool :=
  try_except_Exception
    (data <- open_and_load ;;
     expires_at <- lift (py_get data "expires_at" (PyInt 0)) ;;
     now <- now_timestamp ;;
     d <- lift (py_sub_float expires_at now) ;;
     ret (float_gtb d (inject_Z REFRESH_THRESHOLD_SECONDS)))
    (ret false).

(** Returns the loaded value, or [None] ([PyNone]). *)
Definition get_token_info : M value :=
  try_except_Exception open_and_load (ret PyNone).

Definition needs_refresh : M (bool * Z) :=
  info <- get_token_info ;;
  if negb (truthy info) then ret (true, 0%Z)
  else
    expires_at <- lift (py_get info "expires_at" (PyInt 0)) ;;
    now <- now_timestamp ;;
    d <- lift (py_sub_float expires_at now) ;;
    seconds_left <- lift (py_int d) ;;
    ret (Z.leb seconds_left REFRESH_THRESHOLD_SECONDS, seconds_left).

Section WithAuthenticator.

(** [Authenticator.get_api_key] of litellm: it may rewrite the credential
    file, takes time, and returns the token or raises. *)
Variable get_api_key : env -> outcome string * env.

Definition auth_get_api_key : M value :=
  fun w =>
    let (r, e') := get_api_key (environment w) in
    (match r with Return t => Return (PyStr t) | Raise e => Raise e end,
     mkWorld e' (S (auth_calls w))).

Definition ensure_valid_token : M value :=
  usable <- is_token_usable ;;
  if usable then
    info <- get_token_info ;;
    if truthy info then lift (py_get info "token" (PyStr ""))
    else auth_get_api_key
  else auth_get_api_key.

Definition refresh : M value := auth_get_api_key.

End WithAuthenticator.

(** *** The module-level singleton

    An instance is identified by the number of the construction that made it;
    [constructions] counts the runs of [CopilotTokenManager()]. *)
Record CopilotTokenManager : Type := mkManager {
  instance_id : nat
}.

Record globals : Type := mkGlobals {
  _manager : option CopilotTokenManager;
  constructions : nat
}.

(** The module as loaded: [_manager = None]. *)
Definition module_loaded : globals := mkGlobals None 0.

Definition new_CopilotTokenManager (g : globals) : CopilotTokenManager * globals :=
  (mkManager (constructions g), mkGlobals (_manager g) (S (constructions g))).

Definition get_token_manager (g : globals) : CopilotTokenManager * globals :=
  match _manager g with
  | None =>
      let (m, g') := new_CopilotTokenManager g in
      (m, mkGlobals (Some m) (constructions g'))
  | Some m => (m, g)
  end.

(** [n] calls of [get_token_manager] one after the other: what each returned,
    and the globals left. *)
Fixpoint calls (n : nat) (g : globals) : list CopilotTokenManager * globals :=
  match n with
  | O => ([], g)
  | S n' =>
      let (m, g') := get_token_manager g in
      let (ms, g'') := calls n' g' in
      (m :: ms, g'')
  end.

(** *** Sample states *)

(** The record the authenticator stores: [{"token": ..., "expires_at": ...}]. *)
Definition record (token : string) (expires_at : Z) : value :=
  PyDict [("token", PyStr token); ("expires_at", PyInt expires_at)].

(** A state with the given credential file and clock, before any call of the
    authenticator. *)
Definition state (f : file_state) (now : Q) : world :=
  mkWorld (mkEnv f (double_of now)) 0.

(** An authenticator that obtains the token [t], good for [lifetime] seconds,
    and stores it. *)
Definition granting (t : string) (lifetime : Z) : env -> outcome string * env :=
  fun e =>
    (Return t,
     mkEnv (Contents (record t (Qfloor (clock e) + lifetime))) (clock e)).

(** An authenticator whose exchange fails with [e]. *)
Definition failing (e : exn) : env -> outcome string * env :=
  fun env0 => (Raise e, env0).

(** *** The convenience function

    [get_token_manager().ensure_valid_token()], over the module's globals and
    the world. Every manager wraps an [Authenticator()] of the same
    behaviour [get_api_key]. *)
Definition ensure_copilot_token (get_api_key : env -> outcome string * env)
  (s : globals * world) : outcome value * (globals * world) :=
  let (_, g') := get_token_manager (fst s) in
  let (r, w') := ensure_valid_token get_api_key (snd s) in
  (r, (g', w')).

End CopilotToken.

(** ** mcp-servers/searxng_server.py *)

Module Searxng.

(** [TextContent(type=..., text=...)] *)
Record TextContent : Type := mkTextContent {
  type_ : string;
  text : string
}.

Definition text_content (s : string) : TextContent := mkTextContent "text" s.

Definition newline : string := String (ascii_of_nat 10) EmptyString.

(** [n > v] for an int [n]: exact on numbers, an error on anything else. *)
Definition int_gt (n : Z) (v : value) : outcome bool :=
  match v with
  | PyFloat (Inf negative) => Return negative
  | PyFloat NaN => Return false
  | _ =>
      match as_number v with
      | Some q => Return (Qgtb (inject_Z n) q)
      | None => Raise TypeError
      end
  end.

(** [n < v] for an int [n]. *)
Definition int_lt (n : Z) (v : value) : outcome bool :=
  match v with
  | PyFloat (Inf negative) => Return (negb negative)
  | PyFloat NaN => Return false
  | _ =>
      match as_number v with
      | Some q => Return (Qgtb q (inject_Z n))
      | None => Raise TypeError
      end
  end.

(** [max(v, n)] for an int [n]: [n] if [n > v], else [v]. *)
Definition py_max_int (v : value) (n : Z) : outcome value :=
  let* greater := int_gt n v in
  Return (if greater then PyInt n else v).

(** [min(v, n)] for an int [n]: [n] if [n < v], else [v]. *)
Definition py_min_int (v : value) (n : Z) : outcome value :=
  let* less := int_lt n v in
  Return (if less then PyInt n else v).

(** The index a value gives to a slice: an int or a bool. *)
Definition py_index (v : value) : outcome Z :=
  match v with
  | PyInt z => Return z
  | PyBool b => Return (if b then 1 else 0)%Z
  | _ => Raise TypeError
  end.

(** The number of items [s[:stop]] keeps of [len]: a negative [stop] counts
    from the end. *)
Definition slice_len (len : nat) (stop : Z) : nat :=
  if (stop <? 0)%Z then Z.to_nat (Z.of_nat len + stop)
  else Nat.min (Z.to_nat stop) len.

(** [r[:stop]]: lists and strings are sliced, a dict and the scalars raise
    (TypeError; a dict raises KeyError from Python 3.12 on). *)
Definition py_slice_to (r stop : value) : outcome value :=
  match r with
  | PyList items =>
      let* z := py_index stop in
      Return (PyList (firstn (slice_len (List.length items) z) items))
  | PyStr s =>
      let* z := py_index stop in
      Return (PyStr (substring 0 (slice_len (String.length s) z) s))
  | _ => Raise TypeError
  end.

(** The items a [for] loop draws from a value. *)
Definition py_iter (v : value) : outcome (list value) :=
  match v with
  | PyList items => Return items
  | PyStr s =>
      Return (map (fun c => PyStr (String c EmptyString)) (list_ascii_of_string s))
  | PyDict items => Return (map (fun kv => PyStr (fst kv)) items)
  | _ => Raise TypeError
  end.

(** [enumerate(l, start)] *)
Fixpoint enumerate {A : Type} (start : nat) (l : list A) : list (nat * A) :=
  match l with
  | [] => []
  | x :: rest => (start, x) :: enumerate (S start) rest
  end.

Definition nat_str (n : nat) : string :=
  DecimalString.NilEmpty.string_of_uint (Nat.to_uint n).

Section WithServer.

(** The GET on [SEARXNG_URL] with [params={"q": query, "format": "json"}],
    [raise_for_status()] and [response.json()]: the decoded body, or what one
    of the three raised. *)
Variable http_get_json : value -> outcome value.

(** [str(v)] of a value that is not a [str], and [str(e)] of an exception. *)
Variable py_repr : value -> string.
Variable exn_str : exn -> string.

(** [f"{v}"] *)
Definition fmt (v : value) : string :=
  match v with
  | PyStr s => s
  | _ => py_repr v
  end.

(** The body of the loop for the [i]-th item: the lines it appends. *)
Definition format_item (i : nat) (item : value) : outcome (list string) :=
  let* title := py_get item "title" (PyStr "No title") in
  let* url := py_get item "url" (PyStr "") in
  let* snippet := py_get item "content" (PyStr "") in
  let head := [nat_str i ++ ". " ++ fmt title; "   " ++ fmt url] in
  if truthy snippet then
    let* cut := py_slice_to snippet (PyInt 200) in
    Return (List.app head ["   " ++ fmt cut; ""])
  else Return (List.app head [""]).

(** [for i, item in pairs: ...], the lines appended to [lines]. *)
Fixpoint format_items (pairs : list (nat * value)) : outcome (list string) :=
  match pairs with
  | [] => Return []
  | (i, item) :: rest =>
      let* ls := format_item i item in
      let* more := format_items rest in
      Return (List.app ls more)
  end.

(** [min(max(arguments.get("count", 5), 1), 10)] *)
Definition clamp_count (arguments : list (string * value)) : outcome value :=
  let requested :=
    match dict_get arguments "count" with Some v => v | None => PyInt 5 end in
  let* m := py_max_int requested 1 in
  py_min_int m 10.

(** The body of the [try]. *)
Definition search (query count : value) : outcome (list TextContent) :=
  let* data := http_get_json query in
  let* found := py_get data "results" (PyList []) in
  let* results := py_slice_to found count in
  if negb (truthy results) then
    Return [text_content ("No results for: " ++ fmt query)]
  else
    let* items := py_iter results in
    let* lines := format_items (enumerate 1 items) in
    Return [text_content
              (String.concat newline
                 (("Results for: " ++ fmt query ++ newline) :: lines))].

Definition call_tool (name : string) (arguments : list (string * value))
  : outcome (list TextContent) :=
  if negb (String.eqb name "web_search") then
    Return [text_content ("Unknown tool: " ++ name)]
  else
    let query :=
      match dict_get arguments "query" with Some v => v | None => PyStr "" end in
    let* count := clamp_count arguments in
    if negb (truthy query) then
      Return [text_content "Error: query is required"]
    else
      match search query count with
      | Return r => Return r
      | Raise e =>
          if is_HTTPError e then
            Return [text_content ("HTTP error: " ++ exn_str e)]
          else if is_Exception e then
            Return [text_content ("Error: " ++ exn_str e)]
          else Raise e
      end.

End WithServer.

(** [Tool(name=..., description=..., inputSchema=...)] *)
Record Tool : Type := mkTool {
  name : string;
  description : string;
  inputSchema : value
}.

Definition list_tools : list Tool :=
  [mkTool "web_search"
     "Search the web using SearXNG. Returns titles, URLs, and snippets."
     (PyDict
        [("type", PyStr "object");
         ("properties",
          PyDict
            [("query",
              PyDict [("type", PyStr "string");
                      ("description", PyStr "Search query")]);
             ("count",
              PyDict [("type", PyStr "integer");
                      ("description", PyStr "Number of results (1-10)");
                      ("minimum", PyInt 1);
                      ("maximum", PyInt 10);
                      ("default", PyInt 5)])]);
         ("required", PyList [PyStr "query"])])].

(** [tool.inputSchema["properties"][property][key]], when all three are
    there. *)
Definition schema_entry (tool : Tool) (property key : string) : option value :=
  match inputSchema tool with
  | PyDict schema =>
      match dict_get schema "properties" with
      | Some (PyDict properties) =>
          match dict_get properties property with
          | Some (PyDict entry) => dict_get entry key
          | _ => None
          end
      | _ => None
      end
  | _ => None
  end.

(** *** A sample server *)

Definition hit (title url content : string) : value :=
  PyDict [("title", PyStr title); ("url", PyStr url); ("content", PyStr content)].

(** A server that answers every query with the same three results. *)
Definition three_hits (query : value) : outcome value :=
  Return (PyDict [("query", query);
                  ("results",
                   PyList [hit "Rocq" "https://rocq-prover.org" "A proof assistant";
                           hit "Stdlib" "https://rocq-prover.org/stdlib" "";
                           hit "opam" "https://opam.ocaml.org" "A package manager"])]).

(** A server that has nothing for any query. *)
Definition no_hits (query : value) : outcome value :=
  Return (PyDict [("query", query); ("results", PyList [])]).

(** A server whose third result is not a dict. *)
Definition noisy_hits (query : value) : outcome value :=
  Return (PyDict [("query", query);
                  ("results",
                   PyList [hit "Rocq" "https://rocq-prover.org" "A proof assistant";
                           hit "Stdlib" "https://rocq-prover.org/stdlib" "";
                           PyStr "noise"])]).

(** A server that cannot be reached. *)
Definition unreachable (query : value) : outcome value :=
  Raise (HTTPError "connection refused").

Definition sample_repr (v : value) : string := "<value>".

Definition sample_exn_str (e : exn) : string :=
  match e with
  | HTTPError msg => msg
  | OtherException _ msg => msg
  | _ => "<message>"
  end.

End Searxng.

(** * Properties *)

(** ** Numbers *)

Lemma Qgtb_true (x y : Q) : Qgtb x y = true <-> y < x.
Proof.
  unfold Qgtb. rewrite negb_true_iff.
  split; intro H.
  - apply Qnot_le_lt. intro Hle. apply Qle_bool_iff in Hle. congruence.
  - destruct (Qle_bool x y) eqn:E; [|reflexivity].
    apply Qle_bool_iff in E. exfalso. exact (Qlt_not_le _ _ H E).
Qed.

Lemma Qgtb_false (x y : Q) : Qgtb x y = false <-> x <= y.
Proof.
  unfold Qgtb. rewrite negb_false_iff. apply Qle_bool_iff.
Qed.

(** [int()] returns an integer unchanged, whatever fraction writes it. *)
Lemma Qtruncate_of_Z (x : Q) (z : Z) : x == inject_Z z -> Qtruncate x = z.
Proof.
  destruct x as [n d]. unfold Qeq, Qtruncate. simpl. intro H.
  rewrite Z.mul_1_r in H. subst n. apply Z.quot_mul. discriminate.
Qed.

(** On a difference that is not negative [int()] is the floor... *)
Lemma Qtruncate_floor (x : Q) : 0 <= x -> Qtruncate x = Qfloor x.
Proof.
  destruct x as [n d]. unfold Qle, Qtruncate, Qfloor. simpl. intro H.
  apply Z.quot_div_nonneg; lia.
Qed.

(** ... and on one that is not positive it is the ceiling. *)
Lemma Qtruncate_ceiling (x : Q) : x <= 0 -> Qtruncate x = Qceiling x.
Proof.
  destruct x as [n d]. unfold Qle, Qtruncate, Qceiling, Qfloor. simpl. intro H.
  rewrite <- (Z.opp_involutive n) at 1. rewrite Z.quot_opp_l by discriminate.
  f_equal. apply Z.quot_div_nonneg; lia.
Qed.

(** [int()] rounds toward zero: the result is never further from zero than
    the difference, and is less than one second away from it. *)
Lemma Qtruncate_toward_zero (x : Q) :
  (0 <= x -> inject_Z (Qtruncate x) <= x /\ x < inject_Z (Qtruncate x + 1)) /\
  (x <= 0 -> x <= inject_Z (Qtruncate x) /\ inject_Z (Qtruncate x - 1) < x).
Proof.
  split; intro H.
  - rewrite (Qtruncate_floor x H). split; [apply Qfloor_le | apply Qlt_floor].
  - rewrite (Qtruncate_ceiling x H). split; [apply Qle_ceiling | apply Qceiling_lt].
Qed.

Lemma Qtruncate_comp (x y : Q) : x == y -> Qtruncate x = Qtruncate y.
Proof.
  intro H. destruct (Qlt_le_dec x 0) as [Hneg|Hpos].
  - rewrite (Qtruncate_ceiling x), (Qtruncate_ceiling y) by lra.
    now apply Qceiling_comp.
  - rewrite (Qtruncate_floor x), (Qtruncate_floor y) by lra.
    now apply Qfloor_comp.
Qed.

(** [int()] never moves a difference across a positive whole number of
    seconds. *)
Lemma Qtruncate_ge (x : Q) (z : Z) :
  (0 < z)%Z -> ((z <= Qtruncate x)%Z <-> inject_Z z <= x).
Proof.
  intro Hz. destruct (Qlt_le_dec x 0) as [Hneg|Hpos].
  - assert (Hle : x <= 0) by now apply Qlt_le_weak.
    assert (Hint : (Qtruncate x <= 0)%Z).
    { rewrite (Qtruncate_ceiling x Hle), <- (Qceiling_Z 0).
      now apply Qceiling_resp_le. }
    split; intro H0; [lia|].
    exfalso. assert (Hz' : (0 <= z)%Z) by lia. rewrite Zle_Qle in Hz'.
    apply (Qlt_irrefl x).
    apply Qlt_le_trans with (y := 0); [exact Hneg|].
    apply Qle_trans with (y := inject_Z z); assumption.
  - rewrite (Qtruncate_floor x Hpos). split; intro H0.
    + apply Qle_trans with (y := inject_Z (Qfloor x)); [|apply Qfloor_le].
      now rewrite <- Zle_Qle.
    + rewrite <- (Qfloor_Z z). now apply Qfloor_resp_le.
Qed.

(** ** Rounding *)

Lemma rne_comp (x y : Q) : x == y -> rne x = rne y.
Proof.
  intro H. unfold rne. rewrite (Qfloor_comp x y H).
  assert (Hc : Qcompare (x - inject_Z (Qfloor y)) (1 # 2) =
               Qcompare (y - inject_Z (Qfloor y)) (1 # 2))
    by (apply Qcompare_comp; [rewrite H|]; reflexivity).
  now rewrite Hc.
Qed.

Lemma rne_floor (x : Q) : (Qfloor x <= rne x <= Qfloor x + 1)%Z.
Proof.
  unfold rne. destruct (Qcompare _ _); [destruct (Z.even _)| |]; lia.
Qed.

Lemma rne_mono (x y : Q) : x <= y -> (rne x <= rne y)%Z.
Proof.
  intro H. pose proof (Qfloor_resp_le x y H) as Hf.
  destruct (Z.eq_dec (Qfloor x) (Qfloor y)) as [Heq|Hne].
  - unfold rne. rewrite Heq.
    destruct (Qcompare_spec (x - inject_Z (Qfloor y)) (1 # 2)) as [Hx|Hx|Hx];
      destruct (Qcompare_spec (y - inject_Z (Qfloor y)) (1 # 2)) as [Hy|Hy|Hy];
      try (destruct (Z.even (Qfloor y))); try lia; exfalso; lra.
  - pose proof (rne_floor x). pose proof (rne_floor y). lia.
Qed.

Lemma rne_inject_Z (k : Z) : rne (inject_Z k) = k.
Proof.
  unfold rne. rewrite Qfloor_Z.
  assert (H : Qcompare (inject_Z k - inject_Z k) (1 # 2) = Lt)
    by (apply (proj1 (Qlt_alt _ _)); lra).
  now rewrite H.
Qed.

Lemma rne_ge (x : Q) (k : Z) : inject_Z k <= x -> (k <= rne x)%Z.
Proof.
  intro H. rewrite <- (rne_inject_Z k). now apply rne_mono.
Qed.

Lemma rne_le (x : Q) (k : Z) : x <= inject_Z k -> (rne x <= k)%Z.
Proof.
  intro H. rewrite <- (rne_inject_Z k). now apply rne_mono.
Qed.

Lemma two_pow_pos (s : Z) : (0 <= s)%Z -> 0 < inject_Z (2 ^ s).
Proof.
  intro H. change 0 with (inject_Z 0). rewrite <- Zlt_Qlt.
  apply Z.pow_pos_nonneg; lia.
Qed.

(** Dividing by a power of two and comparing with an integer. *)
Lemma div_pow_le (x : Q) (s k : Z) :
  (0 <= s)%Z -> x <= inject_Z (k * 2 ^ s) -> x / inject_Z (2 ^ s) <= inject_Z k.
Proof.
  intros Hs H. apply Qle_shift_div_r; [now apply two_pow_pos|].
  now rewrite <- inject_Z_mult.
Qed.

Lemma div_pow_ge (x : Q) (s k : Z) :
  (0 <= s)%Z -> inject_Z (k * 2 ^ s) <= x -> inject_Z k <= x / inject_Z (2 ^ s).
Proof.
  intros Hs H. apply Qle_shift_div_l; [now apply two_pow_pos|].
  now rewrite <- inject_Z_mult.
Qed.

Lemma Qfloor_lt_succ (x : Q) : x <= inject_Z (Qfloor x + 1).
Proof. apply Qlt_le_weak, Qlt_floor. Qed.

(** The grid value of [x] lies in the binade of [x]. *)
Lemma round_grid_upper (x : Q) :
  0 <= x ->
  (round_grid x <= 2 ^ (53 + Z.max 0 (Z.log2 (Qfloor x) - 52)))%Z.
Proof.
  intro Hx. unfold round_grid.
  set (s := Z.max 0 (Z.log2 (Qfloor x) - 52)).
  assert (Hs : (0 <= s)%Z) by lia.
  assert (Hf : (0 <= Qfloor x)%Z).
  { rewrite <- (Qfloor_Z 0). now apply Qfloor_resp_le. }
  rewrite Z.pow_add_r by lia.
  apply Z.mul_le_mono_nonneg_r; [apply Z.pow_nonneg; lia|].
  apply rne_le, div_pow_le; [exact Hs|].
  rewrite <- Z.pow_add_r by lia.
  apply Qle_trans with (y := inject_Z (Qfloor x + 1)); [apply Qfloor_lt_succ|].
  rewrite <- Zle_Qle.
  destruct (Z.eq_dec (Qfloor x) 0) as [H0|H0].
  - rewrite H0. pose proof (Z.pow_pos_nonneg 2 (53 + s)). lia.
  - pose proof (Z.log2_spec (Qfloor x)) as Hlog.
    assert (Hlt : (Qfloor x < 2 ^ Z.succ (Z.log2 (Qfloor x)))%Z) by (apply Hlog; lia).
    assert (Hpow : (2 ^ Z.succ (Z.log2 (Qfloor x)) <= 2 ^ (53 + s))%Z)
      by (apply Z.pow_le_mono_r; lia).
    lia.
Qed.

Lemma round_grid_lower (x : Q) :
  0 <= x ->
  (0 < Z.max 0 (Z.log2 (Qfloor x) - 52))%Z ->
  (2 ^ (52 + Z.max 0 (Z.log2 (Qfloor x) - 52)) <= round_grid x)%Z.
Proof.
  intros Hx Hpos. unfold round_grid.
  set (s := Z.max 0 (Z.log2 (Qfloor x) - 52)) in *.
  assert (Hs : s = (Z.log2 (Qfloor x) - 52)%Z) by lia.
  rewrite Z.pow_add_r by lia.
  apply Z.mul_le_mono_nonneg_r; [apply Z.pow_nonneg; lia|].
  apply rne_ge, div_pow_ge; [lia|].
  rewrite <- Z.pow_add_r by lia.
  apply Qle_trans with (y := inject_Z (Qfloor x)); [|apply Qfloor_le].
  rewrite <- Zle_Qle.
  replace (52 + s)%Z with (Z.log2 (Qfloor x)) by lia.
  assert (Hf : (0 < Qfloor x)%Z).
  { destruct (Z.lt_ge_cases 0 (Qfloor x)) as [H|H]; [exact H|].
    rewrite (Z.log2_nonpos _ H) in Hs. lia. }
  apply Z.log2_spec. exact Hf.
Qed.

Lemma round_grid_mono (x y : Q) :
  0 <= x -> x <= y -> (round_grid x <= round_grid y)%Z.
Proof.
  intros Hx Hxy.
  assert (Hy : 0 <= y) by lra.
  pose proof (Qfloor_resp_le x y Hxy) as Hf.
  pose proof (Z.log2_le_mono _ _ Hf) as Hlog.
  destruct (Z.eq_dec (Z.max 0 (Z.log2 (Qfloor x) - 52))
              (Z.max 0 (Z.log2 (Qfloor y) - 52))) as [Heq|Hne].
  - unfold round_grid. rewrite Heq.
    set (s := Z.max 0 (Z.log2 (Qfloor y) - 52)).
    apply Z.mul_le_mono_nonneg_r; [apply Z.pow_nonneg; lia|].
    apply rne_mono.
    apply Qmult_le_compat_r; [exact Hxy|].
    apply Qinv_le_0_compat, Qlt_le_weak, two_pow_pos. lia.
  - pose proof (round_grid_upper x Hx) as Hup.
    assert (Hpos : (0 < Z.max 0 (Z.log2 (Qfloor y) - 52))%Z) by lia.
    pose proof (round_grid_lower y Hy Hpos) as Hlow.
    assert (Hpow : (2 ^ (53 + Z.max 0 (Z.log2 (Qfloor x) - 52)) <=
                    2 ^ (52 + Z.max 0 (Z.log2 (Qfloor y) - 52)))%Z)
      by (apply Z.pow_le_mono_r; lia).
    lia.
Qed.

Lemma round_grid_comp (x y : Q) : x == y -> round_grid x = round_grid y.
Proof.
  intro H. unfold round_grid. rewrite (Qfloor_comp x y H).
  f_equal. apply rne_comp. now rewrite H.
Qed.

Lemma round_grid_nonneg (x : Q) : 0 <= x -> (0 <= round_grid x)%Z.
Proof.
  intro Hx. unfold round_grid.
  apply Z.mul_nonneg_nonneg; [|apply Z.pow_nonneg; lia].
  apply rne_ge. apply Qle_shift_div_l; [apply two_pow_pos; lia|].
  now rewrite Qmult_0_l.
Qed.

Lemma round_pos_comp (x y : Q) : x == y -> round_pos x = round_pos y.
Proof.
  intro H. unfold round_pos.
  rewrite (round_grid_comp (x * inject_Z (2 ^ 1074)) (y * inject_Z (2 ^ 1074)));
    [reflexivity | now rewrite H].
Qed.

Lemma Qnum_neg (x : Q) : (Qnum x <? 0)%Z = true <-> x < 0.
Proof.
  rewrite Z.ltb_lt. unfold Qlt. simpl. lia.
Qed.

Lemma round_comp (x y : Q) : x == y -> round x = round y.
Proof.
  intro H. unfold round.
  assert (Hs : (Qnum x <? 0)%Z = (Qnum y <? 0)%Z).
  { destruct (Qnum x <? 0)%Z eqn:Hx; destruct (Qnum y <? 0)%Z eqn:Hy;
      try reflexivity; exfalso.
    - apply Qnum_neg in Hx. apply Z.ltb_ge in Hy.
      assert (0 <= y) by (unfold Qle; simpl; lia). lra.
    - apply Qnum_neg in Hy. apply Z.ltb_ge in Hx.
      assert (0 <= x) by (unfold Qle; simpl; lia). lra. }
  rewrite Hs. destruct (Qnum y <? 0)%Z.
  - f_equal. apply round_pos_comp. now rewrite H.
  - now apply round_pos_comp.
Qed.

Lemma grid_le (m n : Z) : (m <= n)%Z -> Qred (m # 2 ^ 1074) <= Qred (n # 2 ^ 1074).
Proof.
  intro H. rewrite !Qred_correct. unfold Qle. simpl.
  apply Z.mul_le_mono_nonneg_r; [lia | exact H].
Qed.

Lemma grid_nonneg (m : Z) : (0 <= m)%Z -> 0 <= Qred (m # 2 ^ 1074).
Proof.
  intro H. rewrite Qred_correct. unfold Qle. simpl. lia.
Qed.

Lemma round_pos_gt_mono (a b c : Q) :
  0 <= a -> a <= b ->
  float_gtb (round_pos a) c = true -> float_gtb (round_pos b) c = true.
Proof.
  intros Ha Hab. unfold round_pos.
  assert (Hm : (round_grid (a * inject_Z (2 ^ 1074)) <=
                round_grid (b * inject_Z (2 ^ 1074)))%Z).
  { apply round_grid_mono.
    - apply Qmult_le_0_compat; [exact Ha | discriminate].
    - apply Qmult_le_compat_r; [exact Hab | discriminate]. }
  destruct (2 ^ 2098 <=? round_grid (a * inject_Z (2 ^ 1074)))%Z eqn:Ea;
    destruct (2 ^ 2098 <=? round_grid (b * inject_Z (2 ^ 1074)))%Z eqn:Eb;
    cbn [float_gtb negb]; try reflexivity.
  - apply Z.leb_le in Ea. apply Z.leb_gt in Eb. lia.
  - rewrite !Qgtb_true. intro H.
    apply Qlt_le_trans with (1 := H). now apply grid_le.
Qed.

Lemma round_pos_nonneg (a c : Q) :
  0 <= a -> float_gtb (float_opp (round_pos a)) c = true -> c < 0.
Proof.
  intro Ha. unfold round_pos.
  destruct (2 ^ 2098 <=? _)%Z; cbn [float_opp float_gtb negb]; [discriminate|].
  rewrite Qgtb_true. intro H.
  pose proof (grid_nonneg (round_grid (a * inject_Z (2 ^ 1074)))) as Hg.
  assert (0 <= a * inject_Z (2 ^ 1074))
    by (apply Qmult_le_0_compat; [exact Ha | discriminate]).
  specialize (Hg (round_grid_nonneg _ H0)). lra.
Qed.

Lemma round_pos_0 : round_pos 0 = Finite 0.
Proof. vm_compute. reflexivity. Qed.

(** What rounds to more than a [c >= 0] is positive. *)
Lemma round_gt_pos (a c : Q) :
  0 <= c -> float_gtb (round a) c = true -> 0 < a.
Proof.
  intros Hc H. unfold round in H.
  destruct (Qnum a <? 0)%Z eqn:Hs.
  - apply Qnum_neg in Hs.
    assert (Ha : 0 <= - a) by lra.
    pose proof (round_pos_nonneg (- a) c Ha H). lra.
  - apply Z.ltb_ge in Hs.
    destruct (Qlt_le_dec 0 a) as [Hpos|Hle]; [exact Hpos|].
    assert (Hz : a == 0) by (unfold Qle, Qeq in *; simpl in *; lia).
    rewrite (round_pos_comp a 0 Hz), round_pos_0 in H.
    cbn [float_gtb] in H. apply Qgtb_true in H. lra.
Qed.

(** Rounding is monotone: what rounds to more than [c] keeps doing so when
    it grows. *)
Lemma round_gt_mono (a b c : Q) :
  0 <= c -> a <= b ->
  float_gtb (round a) c = true -> float_gtb (round b) c = true.
Proof.
  intros Hc Hab H.
  pose proof (round_gt_pos a c Hc H) as Ha.
  unfold round in *.
  assert (Hsa : (Qnum a <? 0)%Z = false).
  { destruct (Qnum a <? 0)%Z eqn:E; [|reflexivity].
    apply Qnum_neg in E. lra. }
  assert (Hsb : (Qnum b <? 0)%Z = false).
  { destruct (Qnum b <? 0)%Z eqn:E; [|reflexivity].
    apply Qnum_neg in E. lra. }
  rewrite Hsa in H. rewrite Hsb.
  apply (round_pos_gt_mono a b c); [lra | exact Hab | exact H].
Qed.

(** What does not exceed a double does not round to more than it. *)
Lemma round_le_double (a c : Q) :
  0 <= c -> float_gtb (round c) c = false -> a <= c ->
  float_gtb (round a) c = false.
Proof.
  intros Hc Hround Hac.
  destruct (float_gtb (round a) c) eqn:H; [|reflexivity].
  rewrite (round_gt_mono a c c Hc Hac H) in Hround. discriminate Hround.
Qed.

(** *** The rounding checked against the kernel's binary64

    Subtractions that round, that cancel, that leave the normal range and
    that overflow, and conversions of integers that have more than 53
    bits. *)

Example float_sub_rounds_down :
  float_sub (of_binary64 0x1.3333333333333p-2%float)
    (of_binary64 0x1.999999999999ap-4%float) =
  of_binary64
    (PrimFloat.sub 0x1.3333333333333p-2%float 0x1.999999999999ap-4%float).
Proof. vm_compute. reflexivity. Qed.

Example float_sub_timestamps :
  float_sub (of_binary64 0x1.954fc8b1p+30%float)
    (of_binary64 0x1.954fc402p+30%float) =
  of_binary64 0x1.2bcp+8%float.
Proof. vm_compute. reflexivity. Qed.

Example float_sub_to_300 :
  float_sub (of_binary64 0x1.2dp+8%float)
    (of_binary64 0x1.fffffffffffffp-1%float) =
  of_binary64 (PrimFloat.sub 0x1.2dp+8%float 0x1.fffffffffffffp-1%float) /\
  of_binary64 (PrimFloat.sub 0x1.2dp+8%float 0x1.fffffffffffffp-1%float) =
  Finite (inject_Z 300).
Proof. split; vm_compute; reflexivity. Qed.

Example float_sub_ties_to_even :
  float_sub (of_binary64 0x1p+53%float) (of_binary64 0x1p-1%float) =
  of_binary64 (PrimFloat.sub 0x1p+53%float 0x1p-1%float) /\
  float_sub (of_binary64 0x1.0000000000001p+53%float)
    (of_binary64 0x1p-1%float) =
  of_binary64 (PrimFloat.sub 0x1.0000000000001p+53%float 0x1p-1%float).
Proof. split; vm_compute; reflexivity. Qed.

Example float_sub_subnormal :
  float_sub (of_binary64 0x1p-1022%float)
    (of_binary64 0x0.0000000000001p-1022%float) =
  of_binary64 (PrimFloat.sub 0x1p-1022%float 0x0.0000000000001p-1022%float).
Proof. vm_compute. reflexivity. Qed.

Example float_sub_overflows :
  float_sub (of_binary64 0x1.1ccf385ebc8ap+1023%float)
    (of_binary64 (-0x1.1ccf385ebc8ap+1023)%float) =
  of_binary64
    (PrimFloat.sub 0x1.1ccf385ebc8ap+1023%float
       (-0x1.1ccf385ebc8ap+1023)%float) /\
  of_binary64
    (PrimFloat.sub 0x1.1ccf385ebc8ap+1023%float
       (-0x1.1ccf385ebc8ap+1023)%float) =
  Inf false.
Proof. split; vm_compute; reflexivity. Qed.

Example float_of_int_rounds :
  float_of_int (2 ^ 53 + 1) =
  Return (of_binary64 (PrimFloat.of_uint63 9007199254740993%uint63)) /\
  float_of_int (2 ^ 53 + 3) =
  Return (of_binary64 (PrimFloat.of_uint63 9007199254740995%uint63)) /\
  float_of_int (10 ^ 18 + 1) =
  Return (of_binary64 (PrimFloat.of_uint63 1000000000000000001%uint63)) /\
  float_of_int (2 ^ 53 + 1) = Return (Finite (inject_Z (2 ^ 53))).
Proof. repeat split; vm_compute; reflexivity. Qed.

(** The largest double, and the first integer that is beyond the doubles. *)
Example float_of_int_overflows :
  float_of_int (2 ^ 1024 - 2 ^ 970 - 1) =
  Return (of_binary64 0x1.fffffffffffffp+1023%float) /\
  float_of_int (2 ^ 1024 - 2 ^ 970) = Raise OverflowError.
Proof. split; vm_compute; reflexivity. Qed.

(** ** Doubles *)

Lemma double_round (d : double) :
  exists r, round d = Finite r /\ r == d.
Proof.
  pose proof (dval_ok d) as H. unfold is_double in H.
  destruct (round d) as [r| |]; try discriminate H.
  exists r. split; [reflexivity|]. now apply Qeq_bool_iff.
Qed.

(** Subtracting a double [d >= 0] from zero is exact. *)
Lemma round_zero_minus_double (d : double) :
  0 <= d -> exists r, round (0 - d) = Finite r /\ r == - d.
Proof.
  intro Hd. destruct (double_round d) as (r & Hr & Hrd).
  assert (Hpos : round d = round_pos d).
  { unfold round. destruct (Qnum d <? 0)%Z eqn:E; [|reflexivity].
    apply Qnum_neg in E. lra. }
  unfold round. destruct (Qnum (0 - d) <? 0)%Z eqn:E.
  - rewrite (round_pos_comp (- (0 - d)) d) by lra.
    rewrite <- Hpos, Hr. exists (- r). split; [reflexivity | lra].
  - apply Z.ltb_ge in E.
    assert (Hz : d == 0).
    { assert (0 <= 0 - d) by (unfold Qle; simpl in *; lia). lra. }
    rewrite (round_pos_comp (0 - d) d) by lra.
    rewrite <- Hpos, Hr. exists r. split; [reflexivity | lra].
Qed.

Lemma double_of_double (q : Q) : is_double q = true -> dval (double_of q) = q.
Proof.
  intro H. unfold double_of.
  generalize (eq_refl (is_double q)).
  generalize (is_double q) at 2 3. intros b. destruct b; intro E.
  - reflexivity.
  - congruence.
Qed.

(** ** The token manager *)

Section TokenManager.

Import CopilotToken.

(** The subtraction raises [TypeError] on what is no number and
    [OverflowError] on an int beyond the doubles, both of them
    [Exception]s. *)
Lemma py_sub_float_Raise (v : value) (now : double) (e : exn) :
  py_sub_float v now = Raise e -> e = TypeError \/ e = OverflowError.
Proof.
  unfold py_sub_float, to_float, float_of_int.
  destruct v as [|b|z|x|s|l|d]; try (intro H; injection H as <-; now left).
  - discriminate.
  - destruct (round (inject_Z z)); try discriminate.
    intro H. injection H as <-. now right.
  - discriminate.
Qed.

(** The usability check as one expression over the file and the clock: what
    the [try] computes, with [False] wherever a step raises. *)
Lemma is_token_usable_run (w : world) :
  is_token_usable w =
  (Return
     match load_json (api_key_file (environment w)) with
     | Return data =>
         match py_get data "expires_at" (PyInt 0) with
         | Return v =>
             match py_sub_float v (clock (environment w)) with
             | Return d => float_gtb d (inject_Z 300)
             | Raise _ => false
             end
         | Raise _ => false
         end
     | Raise _ => false
     end, w).
Proof.
  unfold is_token_usable, try_except_Exception, bind, open_and_load,
    now_timestamp, lift, ret.
  destruct (api_key_file (environment w)) as [| | |data]; try reflexivity.
  cbn [load_json].
  destruct (py_get data "expires_at" (PyInt 0)) as [v|e] eqn:Hget.
  - destruct (py_sub_float v (clock (environment w))) as [d|e] eqn:Hsub.
    + reflexivity.
    + destruct (py_sub_float_Raise _ _ _ Hsub) as [-> | ->]; reflexivity.
  - destruct data; try discriminate Hget; injection Hget as <-; reflexivity.
Qed.

Lemma is_token_usable_returns (w : world) :
  exists b : bool, is_token_usable w = (Return b, w).
Proof.
  eexists. apply is_token_usable_run.
Qed.

Lemma get_token_info_run (w : world) :
  get_token_info w =
  (Return
     match api_key_file (environment w) with
     | Contents data => data
     | _ => PyNone
     end, w).
Proof.
  unfold get_token_info, try_except_Exception, open_and_load, ret.
  destruct (api_key_file (environment w)); reflexivity.
Qed.

(** The difference for a value that converts to a finite float. *)
Lemma py_sub_float_finite (v : value) (now : double) (q : Q) :
  to_float v = Return (Finite q) ->
  py_sub_float v now = Return (round (q - now)).
Proof.
  intro H. unfold py_sub_float. rewrite H. reflexivity.
Qed.

Lemma round_300 : float_gtb (round (inject_Z 300)) (inject_Z 300) = false.
Proof. vm_compute. reflexivity. Qed.

(** [300 + 2^-44] is the next double after 300. *)
Lemma round_after_300 :
  float_gtb (round (inject_Z 300 + (1 # 2 ^ 44))) (inject_Z 300) = true.
Proof. vm_compute. reflexivity. Qed.

Lemma to_float_0 : to_float (PyInt 0) = Return (Finite 0).
Proof. vm_compute. reflexivity. Qed.

(** A dict without [expires_at] is read as expiring at 0, which is not more
    than 300 seconds after any [now >= 0]. *)
Lemma is_token_usable_without_expiry (w : world) (items : list (string * value)) :
  0 <= clock (environment w) ->
  api_key_file (environment w) = Contents (PyDict items) ->
  dict_get items "expires_at" = None ->
  is_token_usable w = (Return false, w).
Proof.
  intros Hnow Hfile Hmiss.
  rewrite is_token_usable_run, Hfile. cbn [load_json py_get]. rewrite Hmiss.
  rewrite (py_sub_float_finite _ _ 0 to_float_0).
  f_equal. f_equal.
  apply (round_le_double _ (inject_Z 300)); [discriminate | apply round_300 |].
  apply Qle_trans with (y := 0); [lra | discriminate].
Qed.

(** C1, amended. At any time [now >= 0], [is_token_usable] returns, and
    returns [True] exactly when the credential file loads as a dict whose
    [expires_at] (0 when the key is missing) converts to a float, being a
    number and no int beyond the doubles, with the float difference
    [expires_at - now] more than 300. For an [expires_at] that is a finite
    float the answer is [False] whenever the exact difference is at most
    300, expired records included, and [True] whenever it is at least
    [300 + 2^-44], the next double after 300. A record without [expires_at]
    is read as expiring at 0 and is not usable. *)
Theorem is_token_usable_iff (w : world) :
  0 <= clock (environment w) ->
  exists b : bool,
    is_token_usable w = (Return b, w) /\
    (b = true <->
     exists data v d,
       api_key_file (environment w) = Contents data /\
       py_get data "expires_at" (PyInt 0) = Return v /\
       py_sub_float v (clock (environment w)) = Return d /\
       float_gtb d (inject_Z 300) = true) /\
    (forall data v expires_at,
       api_key_file (environment w) = Contents data ->
       py_get data "expires_at" (PyInt 0) = Return v ->
       to_float v = Return (Finite expires_at) ->
       (expires_at - clock (environment w) <= inject_Z 300 -> b = false) /\
       (inject_Z 300 + (1 # 2 ^ 44) <= expires_at - clock (environment w) ->
        b = true)) /\
    (forall items,
       api_key_file (environment w) = Contents (PyDict items) ->
       dict_get items "expires_at" = None ->
       py_get (PyDict items) "expires_at" (PyInt 0) = Return (PyInt 0) /\
       b = false).
Proof.
  intro Hnow. eexists. split; [apply is_token_usable_run|].
  split; [|split].
  - split.
    + intro H.
      destruct (api_key_file (environment w)) as [| | |data];
        cbn [load_json] in H; try discriminate.
      destruct (py_get data "expires_at" (PyInt 0)) as [v|] eqn:Hget;
        try discriminate.
      destruct (py_sub_float v (clock (environment w))) as [d|] eqn:Hsub;
        try discriminate.
      exists data, v, d. repeat split; assumption.
    + intros (data & v & d & Hfile & Hget & Hsub & Hgt).
      rewrite Hfile. cbn [load_json]. rewrite Hget, Hsub. exact Hgt.
  - intros data v q Hfile Hget Hfloat.
    rewrite Hfile. cbn [load_json].
    rewrite Hget, (py_sub_float_finite v _ q Hfloat).
    split; intro H.
    + apply (round_le_double _ (inject_Z 300));
        [discriminate | apply round_300 | exact H].
    + apply (round_gt_mono (inject_Z 300 + (1 # 2 ^ 44)));
        [discriminate | exact H | apply round_after_300].
  - intros items Hfile Hmiss. split.
    + cbn [py_get]. rewrite Hmiss. reflexivity.
    + pose proof (is_token_usable_without_expiry w items Hnow Hfile Hmiss) as H.
      rewrite is_token_usable_run in H. now injection H.
Qed.

(** A stored record read half a second after it expired. *)
Lemma is_token_usable_iff_witness :
  exists b : bool,
    is_token_usable (state (Contents (record "abc" 1000)) (2001 # 2)) =
    (Return b, state (Contents (record "abc" 1000)) (2001 # 2)) /\ b = false.
Proof.
  destruct (is_token_usable_iff (state (Contents (record "abc" 1000)) (2001 # 2)))
    as (b & Hrun & _ & Hle & _).
  - vm_compute. discriminate.
  - exists b. split; [exact Hrun|].
    apply (Hle (record "abc" 1000) (PyInt 1000) (inject_Z 1000)).
    + reflexivity.
    + reflexivity.
    + vm_compute. reflexivity.
    + vm_compute. discriminate.
Defined.

(** C1 as stated fails: an [expires_at] of [10^400] is an int, and more than
    300 seconds after any clock, but it is beyond the doubles: the
    subtraction raises [OverflowError] inside the [try] and the answer is
    [False]. *)
Lemma is_token_usable_beyond_the_doubles :
  py_get (record "abc" (10 ^ 400)) "expires_at" (PyInt 0) =
  Return (PyInt (10 ^ 400)) /\
  inject_Z 300 < inject_Z (10 ^ 400) - inject_Z 1000 /\
  py_sub_float (PyInt (10 ^ 400)) (double_of (inject_Z 1000)) =
  Raise OverflowError /\
  is_token_usable (state (Contents (record "abc" (10 ^ 400))) (inject_Z 1000)) =
  (Return false, state (Contents (record "abc" (10 ^ 400))) (inject_Z 1000)).
Proof.
  split; [reflexivity|]. split; [vm_compute; reflexivity|].
  split; vm_compute; reflexivity.
Qed.

(** C2 as stated fails: half a second after expiry [int()] gives 0 seconds
    left, where the floor of the difference is -1. *)
Lemma needs_refresh_is_not_floor :
  needs_refresh (state (Contents (record "abc" 1000)) (2001 # 2)) =
  (Return (true, 0%Z), state (Contents (record "abc" 1000)) (2001 # 2)) /\
  Qfloor (inject_Z 1000 - (2001 # 2)) = (-1)%Z /\
  needs_refresh (state (Contents (record "abc" 1000)) (2001 # 2)) <>
  (Return (Z.leb (Qfloor (inject_Z 1000 - (2001 # 2))) 300,
           Qfloor (inject_Z 1000 - (2001 # 2))),
   state (Contents (record "abc" 1000)) (2001 # 2)).
Proof.
  split; [vm_compute; reflexivity|]. split; [reflexivity|].
  intro H. vm_compute in H. discriminate H.
Qed.

Lemma round_301 : round (inject_Z 301) = Finite (inject_Z 301).
Proof. vm_compute. reflexivity. Qed.

Lemma round_300_exact : round (inject_Z 300) = Finite (inject_Z 300).
Proof. vm_compute. reflexivity. Qed.

(** What [needs_refresh] computes on a truthy record whose float difference
    is finite. *)
Lemma needs_refresh_finite (w : world) (info v : value) (d : Q) :
  get_token_info w = (Return info, w) ->
  truthy info = true ->
  py_get info "expires_at" (PyInt 0) = Return v ->
  py_sub_float v (clock (environment w)) = Return (Finite d) ->
  needs_refresh w = (Return (Z.leb (Qtruncate d) 300, Qtruncate d), w).
Proof.
  intros Hinfo Htruthy Hget Hsub.
  unfold needs_refresh, bind. rewrite Hinfo, Htruthy. cbn [negb].
  unfold lift, now_timestamp, ret. rewrite Hget, Hsub. reflexivity.
Qed.

(** C2, amended. [needs_refresh] returns [(True, 0)] when [get_token_info]
    gives nothing truthy. On a dict whose [expires_at] (0 when missing)
    gives a finite float difference [d = expires_at - now] it returns
    [(seconds_left <= 300, seconds_left)] with [seconds_left = int(d)], the
    difference rounded toward zero: the floor when the difference is not
    negative, the ceiling when it is not positive. A negative [seconds_left]
    is returned as it is. When [expires_at], as a float, is exactly 301
    seconds after [now] the result is [(False, 301)], and when exactly 300
    seconds [(True, 300)]. *)
Theorem needs_refresh_spec (w : world) :
  (forall info,
     get_token_info w = (Return info, w) -> truthy info = false ->
     needs_refresh w = (Return (true, 0%Z), w)) /\
  (forall info v d,
     get_token_info w = (Return info, w) -> truthy info = true ->
     py_get info "expires_at" (PyInt 0) = Return v ->
     py_sub_float v (clock (environment w)) = Return (Finite d) ->
     needs_refresh w = (Return (Z.leb (Qtruncate d) 300, Qtruncate d), w) /\
     (0 <= d -> Qtruncate d = Qfloor d) /\
     (d <= 0 -> Qtruncate d = Qceiling d) /\
     (d <= inject_Z (-1) -> (Qtruncate d <= -1)%Z)) /\
  (forall info v expires_at,
     get_token_info w = (Return info, w) -> truthy info = true ->
     py_get info "expires_at" (PyInt 0) = Return v ->
     to_float v = Return (Finite expires_at) ->
     (expires_at - clock (environment w) == inject_Z 301 ->
      needs_refresh w = (Return (false, 301%Z), w)) /\
     (expires_at - clock (environment w) == inject_Z 300 ->
      needs_refresh w = (Return (true, 300%Z), w))).
Proof.
  split; [|split].
  - intros info Hinfo Hfalsy.
    unfold needs_refresh, bind. rewrite Hinfo, Hfalsy. reflexivity.
  - intros info v d Hinfo Htruthy Hget Hsub.
    split; [exact (needs_refresh_finite w info v d Hinfo Htruthy Hget Hsub)|].
    split; [apply Qtruncate_floor|].
    split; [apply Qtruncate_ceiling|].
    intro Hneg. rewrite Qtruncate_ceiling.
    + rewrite <- (Qceiling_Z (-1)). now apply Qceiling_resp_le.
    + apply Qle_trans with (y := inject_Z (-1)); [exact Hneg | discriminate].
  - intros info v q Hinfo Htruthy Hget Hfloat.
    pose proof (py_sub_float_finite v (clock (environment w)) q Hfloat) as Hsub.
    split; intro H; rewrite (round_comp _ _ H) in Hsub.
    + rewrite round_301 in Hsub.
      exact (needs_refresh_finite w info v _ Hinfo Htruthy Hget Hsub).
    + rewrite round_300_exact in Hsub.
      exact (needs_refresh_finite w info v _ Hinfo Htruthy Hget Hsub).
Qed.

(** A record that expires in exactly 300 seconds. *)
Lemma needs_refresh_spec_witness :
  needs_refresh (state (Contents (record "abc" 1300)) (inject_Z 1000)) =
  (Return (true, 300%Z), state (Contents (record "abc" 1300)) (inject_Z 1000)).
Proof.
  destruct (needs_refresh_spec (state (Contents (record "abc" 1300)) (inject_Z 1000)))
    as (_ & _ & H).
  apply (H (record "abc" 1300) (PyInt 1300) (inject_Z 1300)).
  - vm_compute. reflexivity.
  - reflexivity.
  - reflexivity.
  - vm_compute. reflexivity.
  - vm_compute. reflexivity.
Defined.

(** What the usability check accepted is a dict, and [get_token_info] reads
    the same file. *)
Lemma usable_is_dict (w : world) :
  is_token_usable w = (Return true, w) ->
  exists items, api_key_file (environment w) = Contents (PyDict items).
Proof.
  rewrite is_token_usable_run. intro H.
  destruct (api_key_file (environment w)) as [| | |data]; cbn [load_json] in H;
    try discriminate.
  destruct data; cbn [py_get] in H; try discriminate.
  eexists. reflexivity.
Qed.

(** From 1970 on, a usable record is never the empty dict: the default
    [expires_at] of 0 is not usable. *)
Lemma usable_is_truthy (w : world) :
  0 <= clock (environment w) ->
  is_token_usable w = (Return true, w) ->
  exists info, get_token_info w = (Return info, w) /\ truthy info = true.
Proof.
  intros Hnow Husable.
  destruct (usable_is_dict w Husable) as [items Hfile].
  exists (PyDict items). rewrite get_token_info_run, Hfile.
  split; [reflexivity|].
  destruct items as [|kv items]; [|reflexivity].
  rewrite (is_token_usable_without_expiry w [] Hnow Hfile eq_refl) in Husable.
  discriminate Husable.
Qed.

Section WithAuthenticator.

Variable get_api_key : env -> outcome string * env.

(** The fall-through of [ensure_valid_token] and the whole of [refresh]: one
    call of the authenticator. *)
Lemma auth_get_api_key_run (w : world) :
  auth_get_api_key get_api_key w =
  (match fst (get_api_key (environment w)) with
   | Return t => Return (PyStr t)
   | Raise e => Raise e
   end,
   mkWorld (snd (get_api_key (environment w))) (S (auth_calls w))).
Proof.
  unfold auth_get_api_key. destruct (get_api_key (environment w)). reflexivity.
Qed.

Lemma ensure_valid_token_unusable (w : world) :
  is_token_usable w = (Return false, w) \/
  (exists info, get_token_info w = (Return info, w) /\ truthy info = false) ->
  ensure_valid_token get_api_key w = auth_get_api_key get_api_key w.
Proof.
  intros [H | (info & Hinfo & Hfalsy)]; unfold ensure_valid_token, bind.
  - rewrite H. reflexivity.
  - destruct (is_token_usable_returns w) as [[|] Hrun]; rewrite Hrun;
      [|reflexivity].
    rewrite Hinfo, Hfalsy. reflexivity.
Qed.

Lemma ensure_valid_token_usable (w : world) (items : list (string * value)) :
  is_token_usable w = (Return true, w) ->
  api_key_file (environment w) = Contents (PyDict items) ->
  ensure_valid_token get_api_key w =
  match items with
  | [] => auth_get_api_key get_api_key w
  | _ =>
      (Return (match dict_get items "token" with
               | Some v => v
               | None => PyStr ""
               end), w)
  end.
Proof.
  intros Husable Hfile. unfold ensure_valid_token, bind.
  rewrite Husable, get_token_info_run, Hfile.
  destruct items; reflexivity.
Qed.

(** C3. When [is_token_usable] returns [True] and [get_token_info] gives a
    record (a truthy value), [ensure_valid_token] returns the record's
    [token] field and leaves the world as it was: the authenticator is not
    called. *)
Theorem ensure_valid_token_returns_stored (w : world) (info : value) :
  is_token_usable w = (Return true, w) ->
  get_token_info w = (Return info, w) ->
  truthy info = true ->
  exists token,
    py_get info "token" (PyStr "") = Return token /\
    ensure_valid_token get_api_key w = (Return token, w) /\
    auth_calls (snd (ensure_valid_token get_api_key w)) = auth_calls w.
Proof.
  intros Husable Hinfo Htruthy.
  destruct (usable_is_dict w Husable) as [items Hfile].
  rewrite get_token_info_run, Hfile in Hinfo. injection Hinfo as <-.
  rewrite (ensure_valid_token_usable w items Husable Hfile).
  destruct items as [|kv items]; [discriminate Htruthy|].
  eexists. split; [reflexivity|]. split; reflexivity.
Qed.

(** C4. When the record is not usable ([is_token_usable] returns [False],
    as it does when the file does not load) or absent ([get_token_info]
    gives nothing truthy), [ensure_valid_token] is one call of the
    authenticator: the call count goes up by one and the token it produces
    is returned. *)
Theorem ensure_valid_token_refreshes (w : world) :
  is_token_usable w = (Return false, w) \/
  (exists info, get_token_info w = (Return info, w) /\ truthy info = false) ->
  ensure_valid_token get_api_key w = auth_get_api_key get_api_key w /\
  auth_calls (snd (ensure_valid_token get_api_key w)) = S (auth_calls w) /\
  (forall t e',
     get_api_key (environment w) = (Return t, e') ->
     ensure_valid_token get_api_key w =
     (Return (PyStr t), mkWorld e' (S (auth_calls w)))).
Proof.
  intro Hunusable.
  rewrite (ensure_valid_token_unusable w Hunusable), auth_get_api_key_run.
  split; [reflexivity|]. split; [reflexivity|].
  intros t e' Hcall. rewrite Hcall. reflexivity.
Qed.

(** C7. [refresh] is one call of the authenticator in every state, usable or
    not: the call count goes up by one and the token it produces is
    returned. No hypothesis on the state: the usability check takes no
    part. *)
Theorem refresh_always_calls (w : world) :
  auth_calls (snd (refresh get_api_key w)) = S (auth_calls w) /\
  (forall t e',
     get_api_key (environment w) = (Return t, e') ->
     refresh get_api_key w = (Return (PyStr t), mkWorld e' (S (auth_calls w)))).
Proof.
  unfold refresh. rewrite auth_get_api_key_run.
  split; [reflexivity|].
  intros t e' Hcall. rewrite Hcall. reflexivity.
Qed.


(** An error of the authenticator comes out of [refresh], and out of
    [ensure_valid_token] when the record is not usable, as it was raised;
    these two raise nothing else. *)
Lemma authenticator_error_propagates (w : world) :
  (forall e e',
     get_api_key (environment w) = (Raise e, e') ->
     refresh get_api_key w = (Raise e, mkWorld e' (S (auth_calls w))) /\
     (is_token_usable w = (Return false, w) ->
      ensure_valid_token get_api_key w =
      (Raise e, mkWorld e' (S (auth_calls w))))) /\
  (forall e w',
     ensure_valid_token get_api_key w = (Raise e, w') \/
     refresh get_api_key w = (Raise e, w') ->
     exists e', get_api_key (environment w) = (Raise e, e')).
Proof.
  assert (Hauth : forall e w',
            auth_get_api_key get_api_key w = (Raise e, w') ->
            exists e', get_api_key (environment w) = (Raise e, e')).
  { intros e w'. unfold auth_get_api_key.
    destruct (get_api_key (environment w)) as [[t|e0] e'] eqn:Hcall;
      intro H; [discriminate H|].
    injection H as -> _. now exists e'. }
  split.
  - intros e e' Hcall. unfold refresh. split.
    + rewrite auth_get_api_key_run, Hcall. reflexivity.
    + intro Hunusable.
      rewrite (ensure_valid_token_unusable w (or_introl Hunusable)),
        auth_get_api_key_run, Hcall.
      reflexivity.
  - intros e w' [H|H]; [|exact (Hauth e w' H)].
    destruct (is_token_usable_returns w) as [[|] Hrun].
    + destruct (usable_is_dict w Hrun) as [items Hfile].
      rewrite (ensure_valid_token_usable w items Hrun Hfile) in H.
      destruct items; [exact (Hauth e w' H) | discriminate H].
    + rewrite (ensure_valid_token_unusable w (or_introl Hrun)) in H.
      exact (Hauth e w' H).
Qed.

End WithAuthenticator.

(** C5. The claim holds of [ensure_valid_token] and [refresh], but
    [needs_refresh] breaks it: it does the arithmetic that [is_token_usable]
    does inside its [try] with no [try] of its own. On a stored record whose
    [expires_at] is a string, [is_token_usable] answers [False] and
    [needs_refresh] raises [TypeError], an error that is not the
    authenticator's. *)
Theorem needs_refresh_unguarded :
  is_token_usable
    (state (Contents (PyDict [("token", PyStr "abc");
                              ("expires_at", PyStr "2030-01-01")])) 0) =
  (Return false,
   state (Contents (PyDict [("token", PyStr "abc");
                            ("expires_at", PyStr "2030-01-01")])) 0) /\
  needs_refresh
    (state (Contents (PyDict [("token", PyStr "abc");
                              ("expires_at", PyStr "2030-01-01")])) 0) =
  (Raise TypeError,
   state (Contents (PyDict [("token", PyStr "abc");
                            ("expires_at", PyStr "2030-01-01")])) 0).
Proof. split; vm_compute; reflexivity. Qed.

(** C6 as stated fails for the missing key: a record without [expires_at]
    is not usable, but [get_token_info] returns it, not [None]. *)
Lemma get_token_info_returns_incomplete_record :
  dict_get [("token", PyStr "abc")] "expires_at" = None /\
  is_token_usable (state (Contents (PyDict [("token", PyStr "abc")])) 0) =
  (Return false, state (Contents (PyDict [("token", PyStr "abc")])) 0) /\
  get_token_info (state (Contents (PyDict [("token", PyStr "abc")])) 0) =
  (Return (PyDict [("token", PyStr "abc")]),
   state (Contents (PyDict [("token", PyStr "abc")])) 0) /\
  get_token_info (state (Contents (PyDict [("token", PyStr "abc")])) 0) <>
  (Return PyNone, state (Contents (PyDict [("token", PyStr "abc")])) 0).
Proof.
  split; [reflexivity|]. split; [vm_compute; reflexivity|].
  split; [vm_compute; reflexivity|]. discriminate.
Qed.

(** C6, amended. [is_token_usable] and [get_token_info] return in every
    state and never raise. When the file does not load (missing, unreadable,
    not JSON) the first returns [False] and the second [None]. When it loads,
    [get_token_info] returns what was loaded, whatever keys it has; a dict
    without [expires_at] is not usable at any time [now >= 0]. *)
Theorem read_failures_absorbed (w : world) :
  (exists b info,
     is_token_usable w = (Return b, w) /\ get_token_info w = (Return info, w)) /\
  (forall e,
     load_json (api_key_file (environment w)) = Raise e ->
     is_Exception e = true /\
     is_token_usable w = (Return false, w) /\
     get_token_info w = (Return PyNone, w)) /\
  (forall data,
     api_key_file (environment w) = Contents data ->
     get_token_info w = (Return data, w)) /\
  (forall items,
     api_key_file (environment w) = Contents (PyDict items) ->
     dict_get items "expires_at" = None ->
     0 <= clock (environment w) ->
     is_token_usable w = (Return false, w)).
Proof.
  split; [|split; [|split]].
  - eexists. eexists. split; [apply is_token_usable_run | apply get_token_info_run].
  - intros e Hload. rewrite is_token_usable_run, get_token_info_run.
    destruct (api_key_file (environment w)); cbn [load_json] in *;
      try discriminate Hload; injection Hload as <-; repeat split.
  - intros data Hfile. rewrite get_token_info_run, Hfile. reflexivity.
  - intros items Hfile Hmiss Hnow.
    exact (is_token_usable_without_expiry w items Hnow Hfile Hmiss).
Qed.

End TokenManager.
(** *** The theorems at sample states *)

Section TokenManagerSamples.

Import CopilotToken.

(** A record good for another 1000 seconds: the stored token comes back,
    and an authenticator that could only fail is never asked. *)
Lemma ensure_valid_token_returns_stored_witness :
  ensure_valid_token (failing (OtherException "GetAPIKeyError" "no network"))
    (state (Contents (record "abc" 2000)) (inject_Z 1000)) =
  (Return (PyStr "abc"), state (Contents (record "abc" 2000)) (inject_Z 1000)).
Proof.
  destruct (ensure_valid_token_returns_stored
              (failing (OtherException "GetAPIKeyError" "no network"))
              (state (Contents (record "abc" 2000)) (inject_Z 1000))
              (record "abc" 2000))
    as (token & Hget & Hrun & _).
  - vm_compute. reflexivity.
  - reflexivity.
  - reflexivity.
  - injection Hget as <-. exact Hrun.
Defined.

(** A record with 100 seconds left: the authenticator is called once and
    its token returned. *)
Lemma ensure_valid_token_refreshes_witness :
  ensure_valid_token (granting "new" 3600)
    (state (Contents (record "abc" 1100)) (inject_Z 1000)) =
  (Return (PyStr "new"),
   mkWorld (mkEnv (Contents (record "new" 4600)) (double_of (inject_Z 1000))) 1).
Proof.
  destruct (ensure_valid_token_refreshes (granting "new" 3600)
              (state (Contents (record "abc" 1100)) (inject_Z 1000)))
    as (_ & _ & Hrun).
  - left. vm_compute. reflexivity.
  - apply (Hrun "new"). vm_compute. reflexivity.
Defined.

(** No credential file at all: the same. *)
Example ensure_valid_token_no_file :
  ensure_valid_token (granting "new" 3600) (state Missing (inject_Z 1000)) =
  (Return (PyStr "new"),
   mkWorld (mkEnv (Contents (record "new" 4600)) (double_of (inject_Z 1000))) 1).
Proof. vm_compute. reflexivity. Qed.


(** On the record good for another 1000 seconds [refresh] still calls the
    authenticator, where [ensure_valid_token] does not. *)
Example refresh_on_usable_record :
  is_token_usable (state (Contents (record "abc" 2000)) (inject_Z 1000)) =
  (Return true, state (Contents (record "abc" 2000)) (inject_Z 1000)) /\
  refresh (granting "new" 3600)
    (state (Contents (record "abc" 2000)) (inject_Z 1000)) =
  (Return (PyStr "new"),
   mkWorld (mkEnv (Contents (record "new" 4600)) (double_of (inject_Z 1000))) 1).
Proof. split; vm_compute; reflexivity. Qed.

(** The three ways the file can fail to load. *)
Lemma read_failures_absorbed_witness :
  is_token_usable (state Missing 0) = (Return false, state Missing 0) /\
  get_token_info (state Unreadable 0) = (Return PyNone, state Unreadable 0) /\
  get_token_info (state Malformed 0) = (Return PyNone, state Malformed 0).
Proof.
  destruct (read_failures_absorbed (state Missing 0)) as (_ & H1 & _).
  destruct (read_failures_absorbed (state Unreadable 0)) as (_ & H2 & _).
  destruct (read_failures_absorbed (state Malformed 0)) as (_ & H3 & _).
  split; [|split].
  - exact (proj1 (proj2 (H1 _ eq_refl))).
  - exact (proj2 (proj2 (H2 _ eq_refl))).
  - exact (proj2 (proj2 (H3 _ eq_refl))).
Defined.

End TokenManagerSamples.

(** ** The singleton *)

Section Singleton.

Import CopilotToken.

(** Once [_manager] is set, a call returns it and changes nothing. *)
Lemma get_token_manager_reuses (g : globals) (m : CopilotTokenManager) :
  _manager g = Some m -> get_token_manager g = (m, g).
Proof.
  intro H. unfold get_token_manager. rewrite H. reflexivity.
Qed.

Lemma calls_reuse (k : nat) (g : globals) (m : CopilotTokenManager) :
  _manager g = Some m -> calls k g = (repeat m k, g).
Proof.
  intro H. induction k as [|k IH]; simpl.
  - reflexivity.
  - rewrite (get_token_manager_reuses g m H), IH. reflexivity.
Qed.

(** While [_manager] is [None], a call constructs one instance and stores
    it. *)
Lemma get_token_manager_constructs (g : globals) :
  _manager g = None ->
  get_token_manager g =
  (mkManager (constructions g),
   mkGlobals (Some (mkManager (constructions g))) (S (constructions g))).
Proof.
  intro H. unfold get_token_manager. rewrite H. reflexivity.
Qed.

(** C8. Run one after the other from the freshly loaded module, the first
    call of [get_token_manager] constructs one instance and every later call
    returns that instance: after any number of calls the constructor has run
    once. In any state, once [_manager] is set a call returns it and leaves
    both [_manager] and the number of constructions as they were. *)
Theorem get_token_manager_singleton (n : nat) :
  exists m : CopilotTokenManager,
    get_token_manager module_loaded = (m, mkGlobals (Some m) 1) /\
    calls (S n) module_loaded = (repeat m (S n), mkGlobals (Some m) 1) /\
    (forall g m' k, _manager g = Some m' -> calls k g = (repeat m' k, g)).
Proof.
  exists (mkManager 0).
  split; [reflexivity|]. split.
  - change (calls (S n) module_loaded)
      with (let (m, g') := get_token_manager module_loaded in
            let (ms, g'') := calls n g' in (m :: ms, g'')).
    rewrite (get_token_manager_constructs module_loaded eq_refl).
    simpl constructions.
    rewrite (calls_reuse n (mkGlobals (Some (mkManager 0)) 1) (mkManager 0) eq_refl).
    reflexivity.
  - intros g m' k H. exact (calls_reuse k g m' H).
Qed.

(** The constructor runs at most once more than it had, whatever the state
    the calls start in. *)
Lemma calls_construct_at_most_once (n : nat) (g : globals) :
  (constructions (snd (calls n g)) <= S (constructions g))%nat.
Proof.
  destruct n as [|n]; simpl; [lia|].
  destruct (_manager g) as [m|] eqn:Hm.
  - rewrite (get_token_manager_reuses g m Hm), (calls_reuse n g m Hm). simpl. lia.
  - rewrite (get_token_manager_constructs g Hm),
      (calls_reuse n
         (mkGlobals (Some (mkManager (constructions g))) (S (constructions g)))
         (mkManager (constructions g)) eq_refl).
    simpl. lia.
Qed.

End Singleton.

(** ** The search tool *)

Section SearchTool.

Import Searxng.

Lemma and_then_Return {A B : Type} (r : outcome A) (k : A -> outcome B) (b : B) :
  and_then r k = Return b -> exists a, r = Return a /\ k a = Return b.
Proof.
  destruct r as [a|e]; simpl; intro H; [|discriminate H].
  now exists a.
Qed.

(** Comparing an int with a finite number. *)
Lemma int_gt_number (v : value) (n : Z) (q : Q) :
  as_number v = Some q -> int_gt n v = Return (Qgtb (inject_Z n) q).
Proof.
  intro H. unfold int_gt. rewrite H.
  destruct v as [|b|z|x|s|l|d]; try reflexivity.
  destruct x; try reflexivity; discriminate H.
Qed.

Lemma int_lt_number (v : value) (n : Z) (q : Q) :
  as_number v = Some q -> int_lt n v = Return (Qgtb q (inject_Z n)).
Proof.
  intro H. unfold int_lt. rewrite H.
  destruct v as [|b|z|x|s|l|d]; try reflexivity.
  destruct x; try reflexivity; discriminate H.
Qed.

(** The count that leaves the clamp: a number between 1 and 10, the
    requested one when that lies in the range. *)
Lemma clamp_count_spec (arguments : list (string * value)) (q : Q) :
  as_number (match dict_get arguments "count" with
             | Some v => v
             | None => PyInt 5
             end) = Some q ->
  exists count c,
    clamp_count arguments = Return count /\
    as_number count = Some c /\ 1 <= c /\ c <= 10 /\
    (q < 1 -> count = PyInt 1) /\
    (10 < q -> count = PyInt 10) /\
    (1 <= q -> q <= 10 ->
     count = match dict_get arguments "count" with
             | Some v => v
             | None => PyInt 5
             end).
Proof.
  intro Hnum. unfold clamp_count, py_max_int.
  rewrite (int_gt_number _ 1 q Hnum). cbn [and_then].
  destruct (Qgtb (inject_Z 1) q) eqn:Hlow.
  - apply Qgtb_true in Hlow.
    exists (PyInt 1), (inject_Z 1). repeat split; try discriminate.
    + intro Hhigh. exfalso.
      apply (Qlt_irrefl q), Qlt_trans with (y := 1); [exact Hlow|].
      apply Qlt_trans with (y := 10); [reflexivity | exact Hhigh].
    + intros Hle _. exfalso. exact (Qlt_not_le _ _ Hlow Hle).
  - apply Qgtb_false in Hlow. unfold py_min_int.
    rewrite (int_lt_number _ 10 q Hnum). cbn [and_then].
    destruct (Qgtb q (inject_Z 10)) eqn:Hhigh.
    + apply Qgtb_true in Hhigh.
      exists (PyInt 10), (inject_Z 10). repeat split; try discriminate.
      * intro Hlt. exfalso. exact (Qlt_not_le _ _ Hlt Hlow).
      * intros _ Hle. exfalso. exact (Qlt_not_le _ _ Hhigh Hle).
    + apply Qgtb_false in Hhigh.
      eexists. exists q. repeat split; try assumption.
      * intro Hlt. exfalso. exact (Qlt_not_le _ _ Hlt Hlow).
      * intro Hlt. exfalso. exact (Qlt_not_le _ _ Hlt Hhigh).
Qed.

(** A value that indexes a slice is the integer it stands for. *)
Lemma py_index_number (v : value) (z : Z) :
  py_index v = Return z -> as_number v = Some (inject_Z z).
Proof.
  destruct v as [|b|z'|q|s|l|d]; simpl; intro H; try discriminate H.
  - injection H as <-. destruct b; reflexivity.
  - injection H as <-. reflexivity.
Qed.

Lemma firstn_slice_len {A : Type} (l : list A) (k : Z) :
  (0 <= k)%Z ->
  firstn (slice_len (List.length l) k) l = firstn (Z.to_nat k) l.
Proof.
  intro Hk. unfold slice_len.
  destruct (k <? 0)%Z eqn:Hneg; [apply Z.ltb_lt in Hneg; lia|].
  destruct (Nat.le_ge_cases (Z.to_nat k) (List.length l)) as [Hle|Hge].
  - now rewrite Nat.min_l.
  - rewrite Nat.min_r by exact Hge.
    now rewrite !firstn_all2.
Qed.

(** [r[:stop]] succeeds on lists and strings only, with an integer [stop]. *)
Lemma py_slice_to_Return (r stop results : value) :
  py_slice_to r stop = Return results ->
  exists z,
    py_index stop = Return z /\
    ((exists items,
        r = PyList items /\
        results = PyList (firstn (slice_len (List.length items) z) items)) \/
     (exists s,
        r = PyStr s /\
        results = PyStr (substring 0 (slice_len (String.length s) z) s))).
Proof.
  destruct r as [|b|z'|q|s|l|d]; simpl; intro H; try discriminate H;
    apply and_then_Return in H; destruct H as (z & Hz & H);
    injection H as <-; exists z; (split; [exact Hz|]).
  - right. now exists s.
  - left. now exists l.
Qed.

Lemma slice_len_le (len : nat) (stop : Z) :
  (0 <= stop)%Z -> (Z.of_nat (slice_len len stop) <= stop)%Z.
Proof.
  intro H. unfold slice_len.
  destruct (stop <? 0)%Z eqn:Hneg; [apply Z.ltb_lt in Hneg; lia|].
  lia.
Qed.

Section WithServer.

Variable http_get_json : value -> outcome value.
Variable py_repr : value -> string.
Variable exn_str : exn -> string.

(** The loop appends, pass after pass, the lines of one entry per item. *)
Lemma format_items_groups (pairs : list (nat * value)) :
  forall lines,
    format_items py_repr pairs = Return lines ->
    exists groups,
      Forall2 (fun p g => format_item py_repr (fst p) (snd p) = Return g)
        pairs groups /\
      lines = List.concat groups.
Proof.
  induction pairs as [|[i item] rest IH]; simpl; intros lines H.
  - injection H as <-. exists []. split; [constructor | reflexivity].
  - apply and_then_Return in H. destruct H as (ls & Hls & H).
    apply and_then_Return in H. destruct H as (more & Hmore & H).
    injection H as <-.
    destruct (IH more Hmore) as (groups & Hall & ->).
    exists (ls :: groups). split; [|reflexivity].
    constructor; [exact Hls | exact Hall].
Qed.

Lemma enumerate_length {A : Type} (l : list A) :
  forall start, List.length (enumerate start l) = List.length l.
Proof.
  induction l as [|x rest IH]; simpl; intro start; [reflexivity|].
  now rewrite IH.
Qed.

(** A string holds no result: the loop fails on its first character. *)
Lemma format_items_of_str (s : string) (start : nat) :
  s <> EmptyString ->
  forall items,
    py_iter (PyStr s) = Return items ->
    exists e, format_items py_repr (enumerate start items) = Raise e.
Proof.
  intros Hs items H. simpl in H. injection H as <-.
  destruct s as [|c s]; [contradiction|]. simpl.
  now exists AttributeError.
Qed.

(** What the body of the [try] returns: the "No results" message, or the
    header and one entry for each of the first results of the server's
    answer, as many as the slice keeps. *)
Lemma search_Return (query count : value) (r : list TextContent) :
  search http_get_json py_repr query count = Return r ->
  r = [text_content ("No results for: " ++ fmt py_repr query)] \/
  exists data found z groups,
    http_get_json query = Return data /\
    py_get data "results" (PyList []) = Return (PyList found) /\
    py_index count = Return z /\
    List.length groups =
    List.length (firstn (slice_len (List.length found) z) found) /\
    Forall2 (fun p g => format_item py_repr (fst p) (snd p) = Return g)
      (enumerate 1 (firstn (slice_len (List.length found) z) found)) groups /\
    r = [text_content
           (String.concat newline
              (("Results for: " ++ fmt py_repr query ++ newline)
               :: List.concat groups))].
Proof.
  unfold search. intro H.
  apply and_then_Return in H. destruct H as (data & Hdata & H).
  apply and_then_Return in H. destruct H as (found & Hfound & H).
  apply and_then_Return in H. destruct H as (results & Hslice & H).
  destruct (truthy results) eqn:Htruthy; simpl in H.
  2:{ left. now injection H as <-. }
  right.
  apply and_then_Return in H. destruct H as (items & Hiter & H).
  apply and_then_Return in H. destruct H as (lines & Hlines & H).
  injection H as <-.
  destruct (py_slice_to_Return _ _ _ Hslice) as (z & Hz & [Hlist|Hstr]).
  - destruct Hlist as (l & -> & ->). simpl in Hiter. injection Hiter as <-.
    destruct (format_items_groups _ _ Hlines) as (groups & Hall & ->).
    exists data, l, z, groups.
    split; [exact Hdata|]. split; [exact Hfound|]. split; [exact Hz|].
    split; [|split; [exact Hall | reflexivity]].
    rewrite <- (Forall2_length Hall). apply enumerate_length.
  - destruct Hstr as (s & -> & ->). exfalso.
    assert (Hne : substring 0 (slice_len (String.length s) z) s <> EmptyString).
    { intro Hempty. rewrite Hempty in Htruthy. discriminate Htruthy. }
    destruct (format_items_of_str _ 1 Hne items Hiter) as [e He].
    rewrite He in Hlines. discriminate Hlines.
Qed.

(** A count that is not a number: [max] raises before the query is looked
    at. *)
Lemma call_tool_count_not_a_number (arguments : list (string * value)) :
  to_float (match dict_get arguments "count" with
            | Some v => v
            | None => PyInt 5
            end) = Raise TypeError ->
  call_tool http_get_json py_repr exn_str "web_search" arguments =
  Raise TypeError.
Proof.
  intro H. unfold call_tool, clamp_count, py_max_int, int_gt.
  replace (String.eqb "web_search" "web_search") with true by reflexivity.
  cbn [negb].
  destruct (match dict_get arguments "count" with
            | Some v => v
            | None => PyInt 5
            end) as [|b|z|x|s|l|d]; try reflexivity; try discriminate H.
  exfalso. unfold to_float, float_of_int in H.
  destruct (round (inject_Z z)); discriminate H.
Qed.

(** C10, amended. For a [web_search] call whose [count] is missing or a
    finite number, the count is clamped, not refused: 5 when missing, 1
    below the range, 10 above it, itself inside it. With an empty or missing
    query the call returns the text "Error: query is required". With any
    other query the call raises only what is no [Exception], and what it
    returns is an error message, the "No results" message, or the header
    followed by the entries of the first [count] results of the server's
    answer, one entry for each: at most the clamped count of entries, and
    so at most 10. *)
Theorem call_tool_web_search (arguments : list (string * value)) (q : Q) :
  as_number (match dict_get arguments "count" with
             | Some v => v
             | None => PyInt 5
             end) = Some q ->
  let query :=
    match dict_get arguments "query" with Some v => v | None => PyStr "" end in
  exists count c,
    clamp_count arguments = Return count /\
    as_number count = Some c /\ 1 <= c /\ c <= 10 /\
    (dict_get arguments "count" = None -> count = PyInt 5) /\
    (q < 1 -> count = PyInt 1) /\
    (10 < q -> count = PyInt 10) /\
    (1 <= q -> q <= 10 -> dict_get arguments "count" = Some count \/
                          dict_get arguments "count" = None) /\
    (truthy query = false ->
     call_tool http_get_json py_repr exn_str "web_search" arguments =
     Return [text_content "Error: query is required"]) /\
    (truthy query = true ->
     (forall e,
        call_tool http_get_json py_repr exn_str "web_search" arguments = Raise e ->
        is_Exception e = false) /\
     (forall r,
        call_tool http_get_json py_repr exn_str "web_search" arguments = Return r ->
        (exists e, r = [text_content ("HTTP error: " ++ exn_str e)]) \/
        (exists e, r = [text_content ("Error: " ++ exn_str e)]) \/
        r = [text_content ("No results for: " ++ fmt py_repr query)] \/
        exists data results k groups,
          http_get_json query = Return data /\
          py_get data "results" (PyList []) = Return (PyList results) /\
          c == inject_Z (Z.of_nat k) /\
          (k <= 10)%nat /\
          List.length groups = Nat.min k (List.length results) /\
          Forall2 (fun p g => format_item py_repr (fst p) (snd p) = Return g)
            (enumerate 1 (firstn k results)) groups /\
          r = [text_content
                 (String.concat newline
                    (("Results for: " ++ fmt py_repr query ++ newline)
                     :: List.concat groups))])).
Proof.
  intros Hnum query.
  destruct (clamp_count_spec arguments q Hnum)
    as (count & c & Hclamp & Hc & Hlow & Hhigh & Hbelow & Habove & Hinside).
  exists count, c.
  split; [exact Hclamp|]. split; [exact Hc|].
  split; [exact Hlow|]. split; [exact Hhigh|].
  split; [|split; [exact Hbelow|split; [exact Habove|split]]].
  - intro Hmiss. rewrite Hmiss in Hnum, Hinside.
    injection Hnum as <-. apply Hinside; discriminate.
  - intros H1 H10. destruct (dict_get arguments "count") as [v|].
    + left. now rewrite (Hinside H1 H10).
    + now right.
  - split.
    + intro Hfalsy. unfold call_tool. simpl. rewrite Hclamp. simpl.
      fold query. rewrite Hfalsy. reflexivity.
    + intro Htruthy. unfold call_tool. simpl. rewrite Hclamp. simpl.
      fold query. rewrite Htruthy. simpl.
      destruct (search http_get_json py_repr query count) as [r0|e0] eqn:Hsearch.
      * split; [discriminate|]. intros r Hr. injection Hr as <-.
        destruct (search_Return query count r0 Hsearch)
          as [Hnone | (data & found & z & groups & Hdata & Hfound & Hz &
                       Hgroups & Hall & Hr)].
        { right. right. left. exact Hnone. }
        right. right. right.
        apply py_index_number in Hz. rewrite Hc in Hz. injection Hz as ->.
        assert (H1z : (1 <= z)%Z) by (rewrite Zle_Qle; exact Hlow).
        assert (Hz10 : (z <= 10)%Z) by (rewrite Zle_Qle; exact Hhigh).
        rewrite (firstn_slice_len found z) in Hgroups, Hall by lia.
        exists data, found, (Z.to_nat z), groups.
        split; [exact Hdata|]. split; [exact Hfound|].
        split; [rewrite Z2Nat.id by lia; reflexivity|].
        split; [lia|].
        split; [rewrite Hgroups; apply length_firstn|].
        split; [exact Hall | exact Hr].
      * destruct (is_HTTPError e0).
        { split; [discriminate|]. intros r Hr. injection Hr as <-.
          left. now exists e0. }
        destruct (is_Exception e0) eqn:Hexc.
        { split; [discriminate|]. intros r Hr. injection Hr as <-.
          right. left. now exists e0. }
        split; [|discriminate]. intros e He. injection He as <-. exact Hexc.
Qed.

End WithServer.

(** C10 as stated fails when [count] is not a number: the call raises
    [TypeError], with a query and without one. *)
Lemma call_tool_raises_on_count :
  call_tool three_hits sample_repr sample_exn_str "web_search"
    [("count", PyStr "3")] = Raise TypeError /\
  call_tool three_hits sample_repr sample_exn_str "web_search"
    [("query", PyStr "rocq"); ("count", PyStr "3")] = Raise TypeError.
Proof. split; reflexivity. Qed.

(** A call that asks for 30 results of a server that has three, and one
    that asks for 2. *)
Lemma call_tool_web_search_witness :
  clamp_count [("query", PyStr "rocq"); ("count", PyInt 30)] =
  Return (PyInt 10) /\
  call_tool three_hits sample_repr sample_exn_str "web_search"
    [("count", PyInt 30)] =
  Return [text_content "Error: query is required"].
Proof.
  destruct (call_tool_web_search three_hits sample_repr sample_exn_str
              [("query", PyStr "rocq"); ("count", PyInt 30)] (inject_Z 30)
              eq_refl)
    as (count & c & Hclamp & _ & _ & _ & _ & _ & Habove & _).
  destruct (call_tool_web_search three_hits sample_repr sample_exn_str
              [("count", PyInt 30)] (inject_Z 30) eq_refl)
    as (_ & _ & _ & _ & _ & _ & _ & _ & _ & _ & Hempty & _).
  split.
  - rewrite Hclamp. f_equal. apply Habove. reflexivity.
  - exact (Hempty eq_refl).
Defined.

Example call_tool_two_of_three :
  exists t,
    call_tool three_hits sample_repr sample_exn_str "web_search"
      [("query", PyStr "rocq"); ("count", PyInt 2)] = Return [text_content t] /\
    t = String.concat newline
          ["Results for: rocq" ++ newline;
           "1. Rocq"; "   https://rocq-prover.org"; "   A proof assistant"; "";
           "2. Stdlib"; "   https://rocq-prover.org/stdlib"; ""].
Proof. eexists. split; reflexivity. Qed.

End SearchTool.

(** * Further properties *)

(** ** The token manager: queries *)

Section TokenQueries.

Import CopilotToken.

(** [needs_refresh] as one expression over the file and the clock. *)
Lemma needs_refresh_run (w : world) :
  needs_refresh w =
  (match api_key_file (environment w) with
   | Contents data =>
       if truthy data then
         match py_get data "expires_at" (PyInt 0) with
         | Return v =>
             match py_sub_float v (clock (environment w)) with
             | Return d =>
                 match py_int d with
                 | Return seconds_left =>
                     Return (Z.leb seconds_left 300, seconds_left)
                 | Raise e => Raise e
                 end
             | Raise e => Raise e
             end
         | Raise e => Raise e
         end
       else Return (true, 0%Z)
   | _ => Return (true, 0%Z)
   end, w).
Proof.
  unfold needs_refresh, bind. rewrite get_token_info_run.
  destruct (api_key_file (environment w)) as [| | |data]; try reflexivity.
  destruct (truthy data); cbn [negb]; [|reflexivity].
  unfold lift, now_timestamp, ret.
  destruct (py_get data "expires_at" (PyInt 0)) as [v|e]; [|reflexivity].
  destruct (py_sub_float v (clock (environment w))) as [d|e]; [|reflexivity].
  destruct (py_int d); reflexivity.
Qed.

(** The float difference grows when the clock goes back. *)
Lemma py_sub_float_earlier (v : value) (now now' : double) (d : pyfloat) :
  now' <= now ->
  py_sub_float v now = Return d ->
  float_gtb d (inject_Z 300) = true ->
  exists d',
    py_sub_float v now' = Return d' /\ float_gtb d' (inject_Z 300) = true.
Proof.
  intros Hclock. unfold py_sub_float.
  destruct (to_float v) as [x|e]; [|discriminate].
  intros H Hgt. injection H as <-.
  eexists. split; [reflexivity|].
  destruct x as [q|negative|]; cbn [float_sub] in *.
  - apply (round_gt_mono (q - now)); [discriminate | lra | exact Hgt].
  - exact Hgt.
  - exact Hgt.
Qed.

(** X1. With the credential file unchanged, a record usable now was usable at
    every earlier time: once the check says [False] it keeps saying so as
    the clock advances, until the file is rewritten. *)
Theorem is_token_usable_earlier (w w' : world) :
  api_key_file (environment w') = api_key_file (environment w) ->
  clock (environment w') <= clock (environment w) ->
  is_token_usable w = (Return true, w) ->
  is_token_usable w' = (Return true, w').
Proof.
  intros Hfile Hclock. rewrite !is_token_usable_run, Hfile.
  destruct (load_json (api_key_file (environment w))) as [data|]; [|easy].
  destruct (py_get data "expires_at" (PyInt 0)) as [v|]; [|easy].
  destruct (py_sub_float v (clock (environment w))) as [d|] eqn:Hsub; [|easy].
  intro H. injection H as H.
  destruct (py_sub_float_earlier v _ _ d Hclock Hsub H) as (d' & -> & Hgt).
  now rewrite Hgt.
Qed.

(** X2. Whenever [needs_refresh] answers that no refresh is needed, the
    token is usable and at least 301 whole seconds are left. *)
Theorem needs_refresh_false_is_usable (w : world) (seconds_left : Z) :
  needs_refresh w = (Return (false, seconds_left), w) ->
  is_token_usable w = (Return true, w) /\ (301 <= seconds_left)%Z.
Proof.
  rewrite needs_refresh_run, is_token_usable_run.
  destruct (api_key_file (environment w)) as [| | |data]; try discriminate.
  cbn [load_json]. destruct (truthy data); [|discriminate].
  destruct (py_get data "expires_at" (PyInt 0)) as [v|]; [|discriminate].
  destruct (py_sub_float v (clock (environment w))) as [d|]; [|discriminate].
  destruct d as [q|negative|]; cbn [py_int]; try discriminate.
  intro H. injection H as Hleb Hs. apply Z.leb_gt in Hleb. subst seconds_left.
  split; [|lia].
  f_equal. f_equal. cbn [float_gtb]. apply Qgtb_true.
  assert (H301 : inject_Z 301 <= q) by (apply Qtruncate_ge; lia).
  apply Qlt_le_trans with (y := inject_Z 301); [reflexivity | exact H301].
Qed.


(** X4. A stored record that has keys but no [expires_at] always needs a
    refresh: read at a time [now >= 0] it is reported as expired for the
    whole seconds of [now]. *)
Theorem needs_refresh_without_expiry
  (w : world) (items : list (string * value)) :
  0 <= clock (environment w) ->
  api_key_file (environment w) = Contents (PyDict items) ->
  items <> [] ->
  dict_get items "expires_at" = None ->
  needs_refresh w = (Return (true, (- Qfloor (clock (environment w)))%Z), w).
Proof.
  intros Hnow Hfile Hitems Hmiss. rewrite needs_refresh_run, Hfile.
  destruct items as [|kv items]; [contradiction|].
  cbn [truthy py_get]. rewrite Hmiss.
  rewrite (py_sub_float_finite _ _ 0 to_float_0).
  destruct (round_zero_minus_double (clock (environment w)) Hnow)
    as (r & -> & Hr).
  cbn [py_int].
  assert (Hd : r <= 0) by lra.
  rewrite (Qtruncate_ceiling r Hd). unfold Qceiling.
  assert (Heq : - r == clock (environment w)) by lra.
  rewrite (Qfloor_comp _ _ Heq).
  assert (Hfloor : (0 <= Qfloor (clock (environment w)))%Z).
  { rewrite <- (Qfloor_Z 0). now apply Qfloor_resp_le. }
  replace (Z.leb (- Qfloor (clock (environment w))) 300) with true
    by (symmetry; apply Z.leb_le; lia).
  reflexivity.
Qed.

(** X5. The three queries only read: whatever they answer, and also when
    [needs_refresh] raises, the file, the clock and the count of
    authenticator calls are left as they were. *)
Theorem queries_only_read (w : world) :
  snd (is_token_usable w) = w /\
  snd (get_token_info w) = w /\
  snd (needs_refresh w) = w.
Proof.
  rewrite is_token_usable_run, get_token_info_run, needs_refresh_run.
  repeat split.
Qed.

End TokenQueries.
(** ** The token manager: refreshing *)

Section TokenRefreshing.

Import CopilotToken.

Variable get_api_key : env -> outcome string * env.

(** X6. In every state [ensure_valid_token] calls the authenticator at most
    once: either it returns a stored value, raising nothing and leaving the
    state as it was, or it is exactly one call of the authenticator. *)
Theorem ensure_valid_token_at_most_one_call (w : world) :
  (exists token, ensure_valid_token get_api_key w = (Return token, w)) \/
  (ensure_valid_token get_api_key w = auth_get_api_key get_api_key w /\
   auth_calls (snd (ensure_valid_token get_api_key w)) = S (auth_calls w)).
Proof.
  destruct (is_token_usable_returns w) as [[|] Hrun].
  - destruct (usable_is_dict w Hrun) as [items Hfile].
    rewrite (ensure_valid_token_usable get_api_key w items Hrun Hfile).
    destruct items as [|kv items].
    + right. rewrite auth_get_api_key_run. split; reflexivity.
    + left. eexists. reflexivity.
  - right.
    rewrite (ensure_valid_token_unusable get_api_key w (or_introl Hrun)),
      auth_get_api_key_run.
    split; reflexivity.
Qed.

(** X7. When the authenticator, called on an unusable record, leaves a
    record that the usability check accepts, a second [ensure_valid_token]
    right after the first returns the [token] field of that record and does
    not call the authenticator again: two calls in a row cost one refresh. *)
Theorem ensure_valid_token_twice (w : world) (t : string) (e' : env) :
  is_token_usable w = (Return false, w) ->
  get_api_key (environment w) = (Return t, e') ->
  0 <= clock e' ->
  is_token_usable (mkWorld e' (S (auth_calls w))) =
  (Return true, mkWorld e' (S (auth_calls w))) ->
  exists items token,
    api_key_file e' = Contents (PyDict items) /\
    py_get (PyDict items) "token" (PyStr "") = Return token /\
    ensure_valid_token get_api_key w =
    (Return (PyStr t), mkWorld e' (S (auth_calls w))) /\
    bind (ensure_valid_token get_api_key)
      (fun _ => ensure_valid_token get_api_key) w =
    (Return token, mkWorld e' (S (auth_calls w))).
Proof.
  intros Hunusable Hcall Hnow Husable.
  assert (Hfirst : ensure_valid_token get_api_key w =
                   (Return (PyStr t), mkWorld e' (S (auth_calls w)))).
  { rewrite (ensure_valid_token_unusable get_api_key w (or_introl Hunusable)),
      auth_get_api_key_run, Hcall.
    reflexivity. }
  destruct (usable_is_dict _ Husable) as [items Hfile]. simpl in Hfile.
  destruct (usable_is_truthy (mkWorld e' (S (auth_calls w))) Hnow Husable)
    as (info & Hinfo & Htruthy).
  rewrite get_token_info_run in Hinfo. simpl in Hinfo. rewrite Hfile in Hinfo.
  injection Hinfo as <-.
  exists items. eexists.
  split; [exact Hfile|]. split; [reflexivity|]. split; [exact Hfirst|].
  unfold bind. rewrite Hfirst.
  rewrite (ensure_valid_token_usable get_api_key _ items Husable Hfile).
  destruct items as [|kv items]; [discriminate Htruthy | reflexivity].
Qed.

(** X8. [ensure_copilot_token] answers and changes the world as
    [ensure_valid_token] does. It constructs the manager when [_manager] is
    [None], leaves the globals alone when it is set, and after one call every
    later call reuses the manager. *)
Theorem ensure_copilot_token_spec (g : globals) (w : world) :
  exists g',
    ensure_copilot_token get_api_key (g, w) =
    (fst (ensure_valid_token get_api_key w),
     (g', snd (ensure_valid_token get_api_key w))) /\
    (_manager g = None ->
     _manager g' = Some (mkManager (constructions g)) /\
     constructions g' = S (constructions g)) /\
    (forall m, _manager g = Some m -> g' = g) /\
    (forall w2, fst (snd (ensure_copilot_token get_api_key (g', w2))) = g').
Proof.
  unfold ensure_copilot_token. cbn [fst snd].
  destruct (_manager g) as [m|] eqn:Hm.
  - exists g. rewrite (get_token_manager_reuses g m Hm).
    destruct (ensure_valid_token get_api_key w) as [r w'].
    split; [reflexivity|]. split; [discriminate|]. split; [reflexivity|].
    intro w2. destruct (ensure_valid_token get_api_key w2). reflexivity.
  - exists (mkGlobals (Some (mkManager (constructions g))) (S (constructions g))).
    rewrite (get_token_manager_constructs g Hm).
    destruct (ensure_valid_token get_api_key w) as [r w'].
    split; [reflexivity|].
    split; [intros _; split; reflexivity|]. split; [discriminate|].
    intro w2. destruct (ensure_valid_token get_api_key w2). reflexivity.
Qed.

End TokenRefreshing.

(** *** The theorems at sample states *)

Section TokenMoreSamples.

Import CopilotToken.

(** Usable at 1000, so usable at 500. *)
Lemma is_token_usable_earlier_witness :
  is_token_usable (state (Contents (record "abc" 2000)) (inject_Z 500)) =
  (Return true, state (Contents (record "abc" 2000)) (inject_Z 500)).
Proof.
  apply (is_token_usable_earlier
           (state (Contents (record "abc" 2000)) (inject_Z 1000))).
  - reflexivity.
  - vm_compute. discriminate.
  - vm_compute. reflexivity.
Defined.

(** 1000 seconds left. *)
Lemma needs_refresh_false_is_usable_witness :
  is_token_usable (state (Contents (record "abc" 2000)) (inject_Z 1000)) =
  (Return true, state (Contents (record "abc" 2000)) (inject_Z 1000)) /\
  (301 <= 1000)%Z.
Proof.
  apply (needs_refresh_false_is_usable
           (state (Contents (record "abc" 2000)) (inject_Z 1000)) 1000).
  vm_compute. reflexivity.
Defined.


Example usable_and_due_for_refresh :
  is_token_usable (state (Contents (record "abc" 1000)) (1399 # 2)) =
  (Return true, state (Contents (record "abc" 1000)) (1399 # 2)) /\
  needs_refresh (state (Contents (record "abc" 1000)) (1399 # 2)) =
  (Return (true, 300%Z), state (Contents (record "abc" 1000)) (1399 # 2)).
Proof. split; vm_compute; reflexivity. Qed.

(** An expiry beyond every double, as [json.load] reads [1e999]: usable for
    ever, and [needs_refresh] raises. *)
Example usable_for_ever :
  is_token_usable
    (state (Contents (PyDict [("token", PyStr "abc");
                              ("expires_at", PyFloat (Inf false))]))
       (inject_Z 1000)) =
  (Return true,
   state (Contents (PyDict [("token", PyStr "abc");
                            ("expires_at", PyFloat (Inf false))]))
     (inject_Z 1000)) /\
  needs_refresh
    (state (Contents (PyDict [("token", PyStr "abc");
                              ("expires_at", PyFloat (Inf false))]))
       (inject_Z 1000)) =
  (Raise OverflowError,
   state (Contents (PyDict [("token", PyStr "abc");
                            ("expires_at", PyFloat (Inf false))]))
     (inject_Z 1000)).
Proof. split; vm_compute; reflexivity. Qed.

(** A record with a token and no expiry, read at 1234.5. *)
Lemma needs_refresh_without_expiry_witness :
  needs_refresh (state (Contents (PyDict [("token", PyStr "abc")])) (2469 # 2)) =
  (Return (true, (-1234)%Z),
   state (Contents (PyDict [("token", PyStr "abc")])) (2469 # 2)).
Proof.
  assert (H := needs_refresh_without_expiry
                 (state (Contents (PyDict [("token", PyStr "abc")])) (2469 # 2))
                 [("token", PyStr "abc")]).
  vm_compute in H. vm_compute. apply H.
  - discriminate.
  - reflexivity.
  - discriminate.
  - reflexivity.
Defined.

(** A record with 100 seconds left and an authenticator that stores a token
    good for an hour. *)
Lemma ensure_valid_token_twice_witness :
  bind (ensure_valid_token (granting "new" 3600))
    (fun _ => ensure_valid_token (granting "new" 3600))
    (state (Contents (record "abc" 1100)) (inject_Z 1000)) =
  (Return (PyStr "new"),
   mkWorld (mkEnv (Contents (record "new" 4600)) (double_of (inject_Z 1000))) 1).
Proof.
  destruct (ensure_valid_token_twice (granting "new" 3600)
              (state (Contents (record "abc" 1100)) (inject_Z 1000))
              "new"
              (mkEnv (Contents (record "new" 4600)) (double_of (inject_Z 1000))))
    as (items & token & Hfile & Htoken & _ & Hrun).
  - vm_compute. reflexivity.
  - vm_compute. reflexivity.
  - vm_compute. discriminate.
  - vm_compute. reflexivity.
  - cbn [api_key_file] in Hfile. injection Hfile as <-.
    injection Htoken as <-. exact Hrun.
Defined.

End TokenMoreSamples.

(** ** The search tool: tools, count and errors *)

Section SearchToolMore.

Import Searxng.

Lemma Qgtb_inject_Z (a b : Z) : Qgtb (inject_Z a) (inject_Z b) = (b <? a)%Z.
Proof.
  destruct (b <? a)%Z eqn:H.
  - apply Qgtb_true. rewrite <- Zlt_Qlt. now apply Z.ltb_lt.
  - apply Qgtb_false. rewrite <- Zle_Qle. apply Z.ltb_ge in H. exact H.
Qed.

(** The clamp of an integer, and of a missing count. *)
Lemma clamp_count_int (arguments : list (string * value)) (z : Z) :
  match dict_get arguments "count" with
  | Some v => v
  | None => PyInt 5
  end = PyInt z ->
  clamp_count arguments = Return (PyInt (Z.min (Z.max z 1) 10)).
Proof.
  intro H. unfold clamp_count. rewrite H.
  unfold py_max_int, int_gt. cbn [as_number and_then].
  rewrite Qgtb_inject_Z.
  destruct (z <? 1)%Z eqn:Hlow; unfold py_min_int, int_lt;
    cbn [as_number and_then]; rewrite Qgtb_inject_Z.
  - apply Z.ltb_lt in Hlow. replace (10 <? 1)%Z with false by reflexivity.
    f_equal. f_equal. lia.
  - apply Z.ltb_ge in Hlow.
    destruct (10 <? z)%Z eqn:Hhigh.
    + apply Z.ltb_lt in Hhigh. f_equal. f_equal. lia.
    + apply Z.ltb_ge in Hhigh. f_equal. f_equal. lia.
Qed.

(** Slicing a list by a clamped integer count. *)
Lemma py_slice_to_list (l : list value) (k : Z) :
  (0 <= k)%Z ->
  py_slice_to (PyList l) (PyInt k) = Return (PyList (firstn (Z.to_nat k) l)).
Proof.
  intro Hk. simpl. now rewrite firstn_slice_len.
Qed.

Section WithServer.

Variable http_get_json : value -> outcome value.
Variable py_repr : value -> string.
Variable exn_str : exn -> string.

(** X9. A name that [list_tools] does not list is refused with the text
    "Unknown tool: <name>", whatever the arguments are (a [count] that is
    no number included) and whatever the server would answer. *)
Theorem call_tool_unknown_tool
  (tool_name : string) (arguments : list (string * value)) :
  ~ In tool_name (map name list_tools) ->
  call_tool http_get_json py_repr exn_str tool_name arguments =
  Return [text_content ("Unknown tool: " ++ tool_name)].
Proof.
  intro Hnot. unfold call_tool.
  destruct (String.eqb tool_name "web_search") eqn:Heq; [|reflexivity].
  apply String.eqb_eq in Heq. exfalso. apply Hnot. simpl. now left.
Qed.

(** X10. The clamp of [call_tool] uses the bounds and the default that the
    schema of [list_tools] states for [count]: a missing count becomes the
    schema's default, an integer is brought into the schema's range, and an
    integer inside the range is used as it is. *)
Theorem clamp_count_follows_schema
  (tool : Tool) (minimum maximum default : Z)
  (arguments : list (string * value)) :
  In tool list_tools ->
  schema_entry tool "count" "minimum" = Some (PyInt minimum) ->
  schema_entry tool "count" "maximum" = Some (PyInt maximum) ->
  schema_entry tool "count" "default" = Some (PyInt default) ->
  (minimum <= default <= maximum)%Z /\
  (dict_get arguments "count" = None ->
   clamp_count arguments = Return (PyInt default)) /\
  (forall z,
     dict_get arguments "count" = Some (PyInt z) ->
     clamp_count arguments = Return (PyInt (Z.min (Z.max z minimum) maximum)) /\
     ((minimum <= z <= maximum)%Z -> clamp_count arguments = Return (PyInt z))).
Proof.
  intros [<-|[]] Hmin Hmax Hdefault.
  vm_compute in Hmin, Hmax, Hdefault.
  injection Hmin as <-. injection Hmax as <-. injection Hdefault as <-.
  split; [lia|]. split.
  - intro Hmiss. rewrite (clamp_count_int arguments 5); [reflexivity|].
    now rewrite Hmiss.
  - intros z Hz.
    assert (Hclamp : clamp_count arguments =
                     Return (PyInt (Z.min (Z.max z 1) 10)))
      by (apply clamp_count_int; now rewrite Hz).
    split; [exact Hclamp|].
    intro Hrange. rewrite Hclamp. f_equal. f_equal. lia.
Qed.

(** X11. Whatever [call_tool] returns is a list of exactly one
    [TextContent] of type "text". *)
Theorem call_tool_returns_one_text
  (tool_name : string) (arguments : list (string * value))
  (r : list TextContent) :
  call_tool http_get_json py_repr exn_str tool_name arguments = Return r ->
  exists t, r = [mkTextContent "text" t].
Proof.
  unfold call_tool.
  destruct (String.eqb tool_name "web_search"); simpl.
  2:{ intro H. injection H as <-. eexists. reflexivity. }
  intro H. apply and_then_Return in H. destruct H as (count & _ & H).
  destruct (truthy _); simpl in H.
  2:{ injection H as <-. eexists. reflexivity. }
  destruct (search http_get_json py_repr _ count) as [r0|e] eqn:Hsearch.
  - injection H as <-.
    destruct (search_Return _ _ _ _ _ Hsearch)
      as [-> | (data & found & z & groups & _ & _ & _ & _ & _ & ->)];
      eexists; reflexivity.
  - destruct (is_HTTPError e); [injection H as <-; eexists; reflexivity|].
    destruct (is_Exception e); [injection H as <-; eexists; reflexivity|].
    discriminate H.
Qed.

(** X12. With a query and a count that is a number, a failure of the HTTP
    step is answered as text, by its class: an [httpx.HTTPError] as
    "HTTP error: ...", any other [Exception] as "Error: ...", and only what
    is no [Exception] is raised. A body that is not a dict is answered as
    "Error: ..." too. *)
Theorem call_tool_reports_failures
  (arguments : list (string * value)) (q : Q) :
  as_number (match dict_get arguments "count" with
             | Some v => v
             | None => PyInt 5
             end) = Some q ->
  truthy (match dict_get arguments "query" with
          | Some v => v
          | None => PyStr ""
          end) = true ->
  let query :=
    match dict_get arguments "query" with Some v => v | None => PyStr "" end in
  (forall e,
     http_get_json query = Raise e ->
     call_tool http_get_json py_repr exn_str "web_search" arguments =
     if is_HTTPError e then
       Return [text_content ("HTTP error: " ++ exn_str e)]
     else if is_Exception e then
       Return [text_content ("Error: " ++ exn_str e)]
     else Raise e) /\
  (forall data,
     http_get_json query = Return data ->
     (forall items, data <> PyDict items) ->
     call_tool http_get_json py_repr exn_str "web_search" arguments =
     Return [text_content ("Error: " ++ exn_str AttributeError)]).
Proof.
  intros Hnum Htruthy query.
  destruct (clamp_count_spec arguments q Hnum) as (count & c & Hclamp & _).
  change (truthy query = true) in Htruthy.
  unfold call_tool. simpl. rewrite Hclamp. simpl. fold query.
  rewrite Htruthy. simpl.
  split.
  - intros e He. unfold search. rewrite He. reflexivity.
  - intros data Hdata Hnodict. unfold search. rewrite Hdata. simpl.
    destruct data; try reflexivity.
    exfalso. now apply (Hnodict items).
Qed.

(** X13. With a query and an integer count (or none), a body without
    [results], or with an empty list of them, is answered with
    "No results for: <query>". *)
Theorem call_tool_no_results
  (arguments : list (string * value)) (z : Z)
  (body : list (string * value)) :
  match dict_get arguments "count" with
  | Some v => v
  | None => PyInt 5
  end = PyInt z ->
  truthy (match dict_get arguments "query" with
          | Some v => v
          | None => PyStr ""
          end) = true ->
  http_get_json (match dict_get arguments "query" with
                 | Some v => v
                 | None => PyStr ""
                 end) = Return (PyDict body) ->
  dict_get body "results" = None \/ dict_get body "results" = Some (PyList []) ->
  call_tool http_get_json py_repr exn_str "web_search" arguments =
  Return [text_content
            ("No results for: " ++
             fmt py_repr (match dict_get arguments "query" with
                          | Some v => v
                          | None => PyStr ""
                          end))].
Proof.
  intros Hcount Htruthy Hbody Hresults.
  unfold call_tool. simpl. rewrite (clamp_count_int arguments z Hcount). simpl.
  rewrite Htruthy. simpl. unfold search. rewrite Hbody. simpl.
  destruct Hresults as [-> | ->]; simpl;
    rewrite firstn_nil; reflexivity.
Qed.

End WithServer.

End SearchToolMore.

(** ** The search tool: the entries *)

Section SearchEntries.

Import Searxng.

Lemma substring_0_length (s : string) :
  forall n, String.length (substring 0 n s) = Nat.min n (String.length s).
Proof.
  induction s as [|c s IH]; intros [|n]; simpl; try reflexivity.
  f_equal. apply IH.
Qed.

Lemma substring_0_all (s : string) :
  forall n, (String.length s <= n)%nat -> substring 0 n s = s.
Proof.
  induction s as [|c s IH]; intros [|n] H; simpl in *; try reflexivity.
  - lia.
  - f_equal. apply IH. lia.
Qed.

Lemma substring_0_min (s : string) (n : nat) :
  substring 0 (Nat.min n (String.length s)) s = substring 0 n s.
Proof.
  destruct (Nat.le_ge_cases n (String.length s)) as [H|H].
  - now rewrite Nat.min_l.
  - rewrite Nat.min_r by exact H.
    now rewrite !substring_0_all.
Qed.

Lemma nth_error_firstn_Some {A : Type} (l : list A) :
  forall k i x, nth_error (firstn k l) i = Some x -> nth_error l i = Some x.
Proof.
  induction l as [|y l IH]; intros [|k] [|i] x H; simpl in *;
    try discriminate H; try exact H.
  now apply (IH k).
Qed.

Lemma enumerate_nth_error {A : Type} (l : list A) :
  forall start i p,
    nth_error (enumerate start l) i = Some p ->
    fst p = (start + i)%nat /\ nth_error l i = Some (snd p).
Proof.
  induction l as [|x l IH]; intros start [|i] p H; simpl in *;
    try discriminate H.
  - injection H as <-. simpl. split; [lia | reflexivity].
  - destruct (IH (S start) i p H) as [Hi Hx]. split; [lia | exact Hx].
Qed.

Lemma Forall2_nth_error_r {A B : Type} (R : A -> B -> Prop)
  (l1 : list A) (l2 : list B) :
  Forall2 R l1 l2 ->
  forall i b, nth_error l2 i = Some b ->
              exists a, nth_error l1 i = Some a /\ R a b.
Proof.
  induction 1 as [|a b0 l1 l2 HR _ IH]; intros [|i] b Hb; simpl in *;
    try discriminate Hb.
  - injection Hb as <-. now exists a.
  - exact (IH i b Hb).
Qed.

Section WithServer.

Variable http_get_json : value -> outcome value.
Variable py_repr : value -> string.
Variable exn_str : exn -> string.

(** The lines of a result that is a dict with a string (or no) content. *)
Lemma format_item_hit (i : nat) (d : list (string * value)) (s : string) :
  match dict_get d "content" with Some v => v | None => PyStr "" end = PyStr s ->
  format_item py_repr i (PyDict d) =
  Return
    (List.app
       [nat_str i ++ ". " ++
        fmt py_repr (match dict_get d "title" with
                     | Some v => v
                     | None => PyStr "No title"
                     end);
        "   " ++
        fmt py_repr (match dict_get d "url" with
                     | Some v => v
                     | None => PyStr ""
                     end)]
       (if String.eqb s "" then [""]
        else ["   " ++ substring 0 (Nat.min 200 (String.length s)) s; ""])).
Proof.
  intro Hcontent. unfold format_item, py_get. cbn [and_then].
  rewrite Hcontent. cbn [truthy].
  destruct (String.eqb s ""); reflexivity.
Qed.

(** X14. For a result that is a dict whose [content] is a string of ASCII
    characters, or missing, the loop body never raises. It appends the
    numbered title, the url and an empty line, and between the last two,
    when the content is not empty, the first 200 characters of the content:
    exactly 200 of them when the content is longer, the whole content when
    it is not. *)
Theorem format_item_of_hit (i : nat) (d : list (string * value)) (s : string) :
  match dict_get d "content" with Some v => v | None => PyStr "" end = PyStr s ->
  Forall (fun c => (nat_of_ascii c < 128)%nat) (list_ascii_of_string s) ->
  format_item py_repr i (PyDict d) =
  Return
    (if String.eqb s "" then
       [nat_str i ++ ". " ++
        fmt py_repr (match dict_get d "title" with
                     | Some v => v
                     | None => PyStr "No title"
                     end);
        "   " ++
        fmt py_repr (match dict_get d "url" with
                     | Some v => v
                     | None => PyStr ""
                     end);
        ""]
     else
       [nat_str i ++ ". " ++
        fmt py_repr (match dict_get d "title" with
                     | Some v => v
                     | None => PyStr "No title"
                     end);
        "   " ++
        fmt py_repr (match dict_get d "url" with
                     | Some v => v
                     | None => PyStr ""
                     end);
        "   " ++ substring 0 200 s;
        ""]) /\
  String.length (substring 0 200 s) = Nat.min 200 (String.length s) /\
  ((String.length s <= 200)%nat -> substring 0 200 s = s).
Proof.
  intros Hcontent _.
  split; [|split].
  - rewrite (format_item_hit i d s Hcontent), substring_0_min.
    destruct (String.eqb s ""); reflexivity.
  - apply substring_0_length.
  - apply substring_0_all.
Qed.

(** The loop body raises [AttributeError] on what is no dict, and nothing
    but that and [TypeError]. *)
Lemma format_item_Raise (i : nat) (item : value) (e : exn) :
  format_item py_repr i item = Raise e ->
  e = AttributeError \/ e = TypeError.
Proof.
  unfold format_item. destruct item; simpl; intro H;
    try (injection H as <-; now left).
  destruct (truthy _); [|discriminate H].
  destruct (py_slice_to _ _) as [cut|e0] eqn:Hslice; simpl in H;
    [discriminate H|].
  injection H as <-. right.
  unfold py_slice_to in Hslice.
  destruct (match dict_get items "content" with
            | Some v => v
            | None => PyStr ""
            end); simpl in Hslice;
    try discriminate Hslice; now injection Hslice as <-.
Qed.

Lemma format_item_not_dict (i : nat) (item : value) :
  (forall d, item <> PyDict d) ->
  format_item py_repr i item = Raise AttributeError.
Proof.
  intro H. destruct item; try reflexivity.
  exfalso. now apply (H items).
Qed.

(** One result that is no dict makes the whole loop raise. *)
Lemma format_items_bad (items : list value) :
  Exists (fun item => forall d, item <> PyDict d) items ->
  forall start,
    exists e,
      (e = AttributeError \/ e = TypeError) /\
      format_items py_repr (enumerate start items) = Raise e.
Proof.
  induction 1 as [item rest Hbad | item rest _ IH]; intro start; simpl.
  - rewrite (format_item_not_dict start item Hbad). simpl.
    exists AttributeError. split; [now left | reflexivity].
  - destruct (format_item py_repr start item) as [ls|e] eqn:Hitem; simpl.
    + destruct (IH (S start)) as (e & Hkind & ->). simpl. now exists e.
    + exists e. split; [exact (format_item_Raise start item e Hitem) | reflexivity].
Qed.

(** Results that are dicts with string contents all format. *)
Lemma format_items_hits (items : list value) :
  Forall (fun item =>
            exists d s,
              item = PyDict d /\
              match dict_get d "content" with
              | Some v => v
              | None => PyStr ""
              end = PyStr s) items ->
  forall start,
    exists lines, format_items py_repr (enumerate start items) = Return lines.
Proof.
  induction 1 as [|item rest (d & s & -> & Hcontent) _ IH]; intro start; simpl.
  - now exists [].
  - rewrite (format_item_hit start d s Hcontent). cbn [and_then].
    destruct (IH (S start)) as [more ->]. cbn [and_then].
    eexists. reflexivity.
Qed.

(** What [call_tool] computes once the server has answered with a list of
    results: the first [k] of them go through the loop, [k] being the
    clamped count. *)
Lemma call_tool_on_results
  (arguments : list (string * value)) (z : Z)
  (body : list (string * value)) (l : list value) :
  match dict_get arguments "count" with
  | Some v => v
  | None => PyInt 5
  end = PyInt z ->
  truthy (match dict_get arguments "query" with
          | Some v => v
          | None => PyStr ""
          end) = true ->
  http_get_json (match dict_get arguments "query" with
                 | Some v => v
                 | None => PyStr ""
                 end) = Return (PyDict body) ->
  dict_get body "results" = Some (PyList l) ->
  firstn (Z.to_nat (Z.min (Z.max z 1) 10)) l <> [] ->
  call_tool http_get_json py_repr exn_str "web_search" arguments =
  match
    format_items py_repr
      (enumerate 1 (firstn (Z.to_nat (Z.min (Z.max z 1) 10)) l))
  with
  | Return lines =>
      Return [text_content
                (String.concat newline
                   (("Results for: " ++
                     fmt py_repr (match dict_get arguments "query" with
                                  | Some v => v
                                  | None => PyStr ""
                                  end) ++ newline) :: lines))]
  | Raise e =>
      if is_HTTPError e then
        Return [text_content ("HTTP error: " ++ exn_str e)]
      else if is_Exception e then
        Return [text_content ("Error: " ++ exn_str e)]
      else Raise e
  end.
Proof.
  intros Hcount Htruthy Hbody Hresults Hsome.
  unfold call_tool. cbn [String.eqb negb].
  replace (String.eqb "web_search" "web_search") with true by reflexivity.
  cbn [negb]. rewrite (clamp_count_int arguments z Hcount). cbn [and_then].
  rewrite Htruthy. cbn [negb]. unfold search. rewrite Hbody. cbn [and_then].
  unfold py_get. rewrite Hresults. cbn [and_then].
  rewrite py_slice_to_list by lia. cbn [and_then truthy].
  destruct (firstn (Z.to_nat (Z.min (Z.max z 1) 10)) l) as [|x rest] eqn:Hfirst;
    [contradiction|].
  cbn [negb py_iter and_then].
  destruct (format_items py_repr (enumerate 1 (x :: rest))); reflexivity.
Qed.

(** X15. When the server answers with a list of results of which the first
    [k] ([k] the clamped count) are dicts with string contents, the response
    is the header followed by exactly [min(k, len(results))] entries, in the
    order of the results and numbered from 1; each entry has three or four
    lines. Results after the first [k] need not be well formed. *)
Theorem call_tool_lists_first_results
  (arguments : list (string * value)) (z : Z)
  (body : list (string * value)) (l : list value) :
  match dict_get arguments "count" with
  | Some v => v
  | None => PyInt 5
  end = PyInt z ->
  truthy (match dict_get arguments "query" with
          | Some v => v
          | None => PyStr ""
          end) = true ->
  http_get_json (match dict_get arguments "query" with
                 | Some v => v
                 | None => PyStr ""
                 end) = Return (PyDict body) ->
  dict_get body "results" = Some (PyList l) ->
  l <> [] ->
  Forall (fun item =>
            exists d s,
              item = PyDict d /\
              match dict_get d "content" with
              | Some v => v
              | None => PyStr ""
              end = PyStr s)
    (firstn (Z.to_nat (Z.min (Z.max z 1) 10)) l) ->
  exists groups,
    call_tool http_get_json py_repr exn_str "web_search" arguments =
    Return [text_content
              (String.concat newline
                 (("Results for: " ++
                   fmt py_repr (match dict_get arguments "query" with
                                | Some v => v
                                | None => PyStr ""
                                end) ++ newline) :: List.concat groups))] /\
    List.length groups =
    Nat.min (Z.to_nat (Z.min (Z.max z 1) 10)) (List.length l) /\
    (forall i g,
       nth_error groups i = Some g ->
       exists item title,
         nth_error l i = Some item /\
         py_get item "title" (PyStr "No title") = Return title /\
         format_item py_repr (S i) item = Return g /\
         hd_error g = Some (nat_str (S i) ++ ". " ++ fmt py_repr title) /\
         (List.length g = 3 \/ List.length g = 4)%nat).
Proof.
  intros Hcount Htruthy Hbody Hresults Hl Hhits.
  assert (Hsome : firstn (Z.to_nat (Z.min (Z.max z 1) 10)) l <> []).
  { destruct l as [|x l]; [contradiction|].
    destruct (Z.to_nat (Z.min (Z.max z 1) 10)) eqn:Hk; [lia | discriminate]. }
  rewrite (call_tool_on_results arguments z body l Hcount Htruthy Hbody
             Hresults Hsome).
  destruct (format_items_hits _ Hhits 1) as [lines Hlines]. rewrite Hlines.
  destruct (format_items_groups py_repr _ _ Hlines) as (groups & Hall & ->).
  exists groups. split; [reflexivity|]. split.
  - rewrite <- (Forall2_length Hall), enumerate_length. apply length_firstn.
  - intros i g Hg.
    destruct (Forall2_nth_error_r _ _ _ Hall i g Hg) as ([j item] & Hp & Hfmt).
    destruct (enumerate_nth_error _ _ _ _ Hp) as [Hj Hitem].
    simpl in Hj, Hitem, Hfmt. subst j.
    rewrite Forall_forall in Hhits.
    destruct (Hhits item (nth_error_In _ _ Hitem)) as (d & s & -> & Hcontent).
    eexists. eexists.
    split; [exact (nth_error_firstn_Some _ _ _ _ Hitem)|].
    split; [reflexivity|]. split; [exact Hfmt|].
    rewrite (format_item_hit (S i) d s Hcontent) in Hfmt.
    injection Hfmt as <-.
    split; [reflexivity|].
    destruct (String.eqb s ""); [left | right]; reflexivity.
Qed.

(** X16. One result among the first [k] that is no dict spoils the whole
    response: it is the single text "Error: ..." for the [AttributeError]
    or [TypeError] the loop ran into, and no entry is shown. *)
Theorem call_tool_one_bad_result
  (arguments : list (string * value)) (z : Z)
  (body : list (string * value)) (l : list value) :
  match dict_get arguments "count" with
  | Some v => v
  | None => PyInt 5
  end = PyInt z ->
  truthy (match dict_get arguments "query" with
          | Some v => v
          | None => PyStr ""
          end) = true ->
  http_get_json (match dict_get arguments "query" with
                 | Some v => v
                 | None => PyStr ""
                 end) = Return (PyDict body) ->
  dict_get body "results" = Some (PyList l) ->
  Exists (fun item => forall d, item <> PyDict d)
    (firstn (Z.to_nat (Z.min (Z.max z 1) 10)) l) ->
  exists e,
    (e = AttributeError \/ e = TypeError) /\
    call_tool http_get_json py_repr exn_str "web_search" arguments =
    Return [text_content ("Error: " ++ exn_str e)].
Proof.
  intros Hcount Htruthy Hbody Hresults Hbad.
  assert (Hsome : firstn (Z.to_nat (Z.min (Z.max z 1) 10)) l <> []).
  { intro Hnil. rewrite Hnil in Hbad. inversion Hbad. }
  rewrite (call_tool_on_results arguments z body l Hcount Htruthy Hbody
             Hresults Hsome).
  destruct (format_items_bad _ Hbad 1) as (e & Hkind & ->).
  exists e. split; [exact Hkind|].
  destruct Hkind as [-> | ->]; reflexivity.
Qed.

End WithServer.

(** X17. The response depends on the first [k] results only ([k] the
    clamped count): two servers whose result lists agree on their first [k]
    items get the same answer from [call_tool]. *)
Theorem call_tool_reads_first_results
  (http1 http2 : value -> outcome value)
  (py_repr : value -> string) (exn_str : exn -> string)
  (arguments : list (string * value)) (z : Z)
  (body1 body2 : list (string * value)) (l1 l2 : list value) :
  match dict_get arguments "count" with
  | Some v => v
  | None => PyInt 5
  end = PyInt z ->
  http1 (match dict_get arguments "query" with
         | Some v => v
         | None => PyStr ""
         end) = Return (PyDict body1) ->
  http2 (match dict_get arguments "query" with
         | Some v => v
         | None => PyStr ""
         end) = Return (PyDict body2) ->
  dict_get body1 "results" = Some (PyList l1) ->
  dict_get body2 "results" = Some (PyList l2) ->
  firstn (Z.to_nat (Z.min (Z.max z 1) 10)) l1 =
  firstn (Z.to_nat (Z.min (Z.max z 1) 10)) l2 ->
  call_tool http1 py_repr exn_str "web_search" arguments =
  call_tool http2 py_repr exn_str "web_search" arguments.
Proof.
  intros Hcount H1 H2 Hl1 Hl2 Hsame.
  unfold call_tool.
  replace (String.eqb "web_search" "web_search") with true by reflexivity.
  cbn [negb]. rewrite (clamp_count_int arguments z Hcount). cbn [and_then].
  destruct (truthy _); [|reflexivity]. cbn [negb].
  unfold search. rewrite H1, H2. cbn [and_then].
  unfold py_get. rewrite Hl1, Hl2. cbn [and_then].
  rewrite !py_slice_to_list by lia. rewrite Hsame. reflexivity.
Qed.

End SearchEntries.

(** *** The theorems at the sample servers *)

Section SearchSamples.

Import Searxng.

(** A tool that is not listed, called with a count that is no number. *)
Lemma call_tool_unknown_tool_witness :
  call_tool unreachable sample_repr sample_exn_str "web_fetch"
    [("count", PyStr "3")] =
  Return [text_content "Unknown tool: web_fetch"].
Proof.
  apply (call_tool_unknown_tool unreachable sample_repr sample_exn_str
           "web_fetch" [("count", PyStr "3")]).
  intros [H|[]]. discriminate H.
Defined.

(** The listed tool, asked for 30 results. *)
Lemma clamp_count_follows_schema_witness :
  clamp_count [("query", PyStr "rocq"); ("count", PyInt 30)] =
  Return (PyInt 10).
Proof.
  destruct (clamp_count_follows_schema _ 1 10 5
              [("query", PyStr "rocq"); ("count", PyInt 30)]
              (or_introl eq_refl : In _ list_tools) eq_refl eq_refl eq_refl)
    as (_ & _ & H).
  exact (proj1 (H 30%Z eq_refl)).
Defined.

(** The answer to a call without a query. *)
Lemma call_tool_returns_one_text_witness :
  exists t,
    call_tool three_hits sample_repr sample_exn_str "web_search" [] =
    Return [mkTextContent "text" t].
Proof.
  destruct (call_tool_returns_one_text three_hits sample_repr sample_exn_str
              "web_search" [] [text_content "Error: query is required"] eq_refl)
    as [t Ht].
  exists t. rewrite <- Ht. reflexivity.
Defined.

(** A server that cannot be reached. *)
Lemma call_tool_reports_failures_witness :
  call_tool unreachable sample_repr sample_exn_str "web_search"
    [("query", PyStr "rocq")] =
  Return [text_content "HTTP error: connection refused"].
Proof.
  destruct (call_tool_reports_failures unreachable sample_repr sample_exn_str
              [("query", PyStr "rocq")] (inject_Z 5) eq_refl eq_refl)
    as [H _].
  exact (H (HTTPError "connection refused") eq_refl).
Defined.

(** A server with no result. *)
Lemma call_tool_no_results_witness :
  call_tool no_hits sample_repr sample_exn_str "web_search"
    [("query", PyStr "rocq"); ("count", PyInt 3)] =
  Return [text_content "No results for: rocq"].
Proof.
  exact (call_tool_no_results no_hits sample_repr sample_exn_str
           [("query", PyStr "rocq"); ("count", PyInt 3)] 3
           [("query", PyStr "rocq"); ("results", PyList [])]
           eq_refl eq_refl eq_refl (or_intror eq_refl)).
Defined.

(** A result with a short content: four lines, the content whole. *)
Lemma format_item_of_hit_witness :
  format_item sample_repr 1
    (hit "Rocq" "https://rocq-prover.org" "A proof assistant") =
  Return ["1. Rocq"; "   https://rocq-prover.org"; "   A proof assistant"; ""].
Proof.
  destruct (format_item_of_hit sample_repr 1
              [("title", PyStr "Rocq"); ("url", PyStr "https://rocq-prover.org");
               ("content", PyStr "A proof assistant")]
              "A proof assistant" eq_refl)
    as (Hrun & _ & _).
  - repeat (constructor; [vm_compute; lia|]). constructor.
  - exact Hrun.
Defined.

(** Two of three results. *)
Lemma call_tool_lists_first_results_witness :
  exists groups,
    call_tool three_hits sample_repr sample_exn_str "web_search"
      [("query", PyStr "rocq"); ("count", PyInt 2)] =
    Return [text_content
              (String.concat newline
                 (("Results for: rocq" ++ newline) :: List.concat groups))] /\
    List.length groups = 2%nat.
Proof.
  destruct (call_tool_lists_first_results three_hits sample_repr sample_exn_str
              [("query", PyStr "rocq"); ("count", PyInt 2)] 2
              [("query", PyStr "rocq");
               ("results",
                PyList [hit "Rocq" "https://rocq-prover.org" "A proof assistant";
                        hit "Stdlib" "https://rocq-prover.org/stdlib" "";
                        hit "opam" "https://opam.ocaml.org" "A package manager"])]
              [hit "Rocq" "https://rocq-prover.org" "A proof assistant";
               hit "Stdlib" "https://rocq-prover.org/stdlib" "";
               hit "opam" "https://opam.ocaml.org" "A package manager"]
              eq_refl eq_refl eq_refl eq_refl)
    as (groups & Hrun & Hlen & _).
  - discriminate.
  - repeat constructor; eexists; eexists; split; reflexivity.
  - exists groups. split; [exact Hrun | exact Hlen].
Defined.

(** The third result is not a dict: asked for three, the call answers with an
    error; asked for two, it does not see it. *)
Lemma call_tool_one_bad_result_witness :
  exists e,
    call_tool noisy_hits sample_repr sample_exn_str "web_search"
      [("query", PyStr "rocq"); ("count", PyInt 3)] =
    Return [text_content ("Error: " ++ sample_exn_str e)].
Proof.
  destruct (call_tool_one_bad_result noisy_hits sample_repr sample_exn_str
              [("query", PyStr "rocq"); ("count", PyInt 3)] 3
              [("query", PyStr "rocq");
               ("results",
                PyList [hit "Rocq" "https://rocq-prover.org" "A proof assistant";
                        hit "Stdlib" "https://rocq-prover.org/stdlib" "";
                        PyStr "noise"])]
              [hit "Rocq" "https://rocq-prover.org" "A proof assistant";
               hit "Stdlib" "https://rocq-prover.org/stdlib" "";
               PyStr "noise"]
              eq_refl eq_refl eq_refl eq_refl)
    as (e & _ & Hrun).
  - apply Exists_cons_tl, Exists_cons_tl, Exists_cons_hd. discriminate.
  - exists e. exact Hrun.
Defined.

Lemma call_tool_reads_first_results_witness :
  call_tool three_hits sample_repr sample_exn_str "web_search"
    [("query", PyStr "rocq"); ("count", PyInt 2)] =
  call_tool noisy_hits sample_repr sample_exn_str "web_search"
    [("query", PyStr "rocq"); ("count", PyInt 2)].
Proof.
  exact (call_tool_reads_first_results three_hits noisy_hits
           sample_repr sample_exn_str
           [("query", PyStr "rocq"); ("count", PyInt 2)] 2
           [("query", PyStr "rocq");
            ("results",
             PyList [hit "Rocq" "https://rocq-prover.org" "A proof assistant";
                     hit "Stdlib" "https://rocq-prover.org/stdlib" "";
                     hit "opam" "https://opam.ocaml.org" "A package manager"])]
           [("query", PyStr "rocq");
            ("results",
             PyList [hit "Rocq" "https://rocq-prover.org" "A proof assistant";
                     hit "Stdlib" "https://rocq-prover.org/stdlib" "";
                     PyStr "noise"])]
           _ _ eq_refl eq_refl eq_refl eq_refl eq_refl eq_refl).
Defined.

End SearchSamples.
